(** * Context-Aware-Cut-Selection: the SLURM dispatch and completion barrier

    A shallow embedding of the job submitter ([run_python_slurm_job]), the
    completion barrier ([wait_for_jobs_to_finish]), the phase controller
    ([filter_instances]), the worker's record writer
    ([solve_model_and_extract_solve_info]), the workspace hygiene step
    ([remove_temp_files]) and [str_to_bool], with the properties the
    specification states about them.

    Python values are a small tagged union, dictionaries are [gmap]s, the file
    system is a finite map from path strings to nodes, and code that raises or
    changes the file system runs in a state-and-exception monad. *)

From Stdlib Require Import ZArith Ascii String List PrimFloat Uint63.
From stdpp Require Import base option list gmap strings pretty.

Open Scope string_scope.
Open Scope list_scope.
Open Scope Z_scope.

(** ** Characters and strings

    A Python [str] is modelled by the string of its UTF-8 bytes, and [bytes]
    by the same type.  Every separator, suffix and token the program looks for
    is ASCII, so the operations below act on bytes as they act on code
    points. *)

Module Str.

Definition is_upper (c : ascii) : bool :=
  let n := nat_of_ascii c in (65 <=? n)%nat && (n <=? 90)%nat.

(** [c.lower()] on one ASCII character; other bytes are left alone. *)
Definition lower_char (c : ascii) : ascii :=
  if is_upper c then ascii_of_nat (nat_of_ascii c + 32) else c.

(** [s.lower()] *)
Fixpoint lower (s : string) : string :=
  match s with
  | EmptyString => EmptyString
  | String c s' => String (lower_char c) (lower s')
  end.

(** [s.startswith(p)] *)
Fixpoint startswith (p s : string) : bool :=
  match p, s with
  | EmptyString, _ => true
  | String a p', String b s' => if Ascii.eqb a b then startswith p' s' else false
  | String _ _, EmptyString => false
  end.

(** [sub in s] *)
Fixpoint contains (sub s : string) : bool :=
  startswith sub s ||
  match s with
  | EmptyString => false
  | String _ s' => contains sub s'
  end.

(** [s.endswith(p)] *)
Fixpoint endswith (p s : string) : bool :=
  bool_decide (s = p) ||
  match s with
  | EmptyString => false
  | String _ s' => endswith p s'
  end.

(** [s.split(sep)] for a non-empty separator: the pieces between the
    leftmost non-overlapping occurrences of [sep].  [skip] counts the
    characters of an occurrence still to pass over and [cur] is the piece
    being read. *)
Fixpoint split_go (sep : string) (skip : nat) (cur : string) (s : string) : list string :=
  match s with
  | EmptyString => [cur]
  | String c s' =>
      match skip with
      | S k => split_go sep k cur s'
      | O =>
          if startswith sep s
          then cur :: split_go sep (Nat.pred (String.length sep)) EmptyString s'
          else split_go sep O (cur +:+ String c EmptyString) s'
      end
  end.

Definition split (sep s : string) : list string := split_go sep O EmptyString s.

(** [s[i:j]] for [0 <= i <= j] *)
Fixpoint drop (i : nat) (s : string) : string :=
  match i, s with
  | O, _ => s
  | S i', String _ s' => drop i' s'
  | S _, EmptyString => EmptyString
  end.

Fixpoint take (j : nat) (s : string) : string :=
  match j, s with
  | S j', String c s' => String c (take j' s')
  | _, _ => EmptyString
  end.

Definition slice (i j : nat) (s : string) : string := take (j - i) (drop i s).

(** Removal of leading and trailing characters satisfying [p]. *)
Fixpoint lstrip_by (p : ascii → bool) (s : string) : string :=
  match s with
  | EmptyString => EmptyString
  | String c s' => if p c then lstrip_by p s' else s
  end.

Fixpoint rstrip_by (p : ascii → bool) (s : string) : string :=
  match s with
  | EmptyString => EmptyString
  | String c s' =>
      let r := rstrip_by p s' in
      if bool_decide (r = EmptyString) && p c then EmptyString else String c r
  end.

Definition strip_by (p : ascii → bool) (s : string) : string :=
  rstrip_by p (lstrip_by p s).

(** The ASCII whitespace that [bytes.rstrip()] and [int()] pass over:
    space, tab, line feed, vertical tab, form feed, carriage return. *)
Definition is_space (c : ascii) : bool :=
  let n := nat_of_ascii c in (n =? 32)%nat || ((9 <=? n)%nat && (n <=? 13)%nat).

Definition is_digit (c : ascii) : bool :=
  let n := nat_of_ascii c in (48 <=? n)%nat && (n <=? 57)%nat.

Definition digit_value (c : ascii) : Z := Z.of_nat (nat_of_ascii c) - 48.

Fixpoint all_chars (p : ascii → bool) (s : string) : bool :=
  match s with
  | EmptyString => true
  | String c s' => p c && all_chars p s'
  end.

(** [sep.join(l)] *)
Fixpoint join (sep : string) (l : list string) : string :=
  match l with
  | [] => EmptyString
  | [x] => x
  | x :: l' => x +:+ sep +:+ join sep l'
  end.

End Str.

(** ** Python values *)

Inductive pyval :=
| PyNone
| PyBool (b : bool)
| PyInt (z : Z)
| PyFloat (f : float)
| PyStr (s : string).

Inductive exn :=
| AssertionError
| KeyError
| TypeError
| ValueError
| IndexError
| FileNotFoundError
| FileExistsError
| IsADirectoryError
| NotADirectoryError
| SameFileError.

(** The result of running a piece of the program: a value, a raised
    exception, or [Diverge] when the polling loop is still waiting after the
    number of polls the model was given. *)
Inductive outcome (A : Type) :=
| Ok (a : A)
| Raise (e : exn)
| Diverge.
Arguments Ok {A} a.
Arguments Raise {A} e.
Arguments Diverge {A}.

(** [str_to_bool] of utilities.py:
    [assert type(word) == str; return word.lower() in ["yes", "true", "t", "1"]] *)
Definition true_words : list string := ["yes"; "true"; "t"; "1"].

Definition str_to_bool (word : pyval) : outcome bool :=
  match word with
  | PyStr s => Ok (bool_decide (Str.lower s ∈ true_words))
  | _ => Raise AssertionError
  end.

Example str_to_bool_False : str_to_bool (PyStr "False") = Ok false.
Proof. reflexivity. Qed.

Example str_to_bool_TRUE : str_to_bool (PyStr "TRUE") = Ok true.
Proof. reflexivity. Qed.

(** ** Paths ([os.path]) *)

Module Path.

Definition slash : ascii := "/"%char.

(** [os.path.join(a, b)] *)
Definition join (a b : string) : string :=
  if Str.startswith "/" b then b
  else if bool_decide (a = "") || Str.endswith "/" a then a +:+ b
  else a +:+ "/" +:+ b.

Fixpoint has_slash (p : string) : bool :=
  match p with
  | EmptyString => false
  | String c p' => Ascii.eqb c slash || has_slash p'
  end.

(** [p[:p.rfind('/') + 1]]: the part of [p] up to its last slash. *)
Fixpoint head_part (p : string) : string :=
  match p with
  | EmptyString => EmptyString
  | String c p' =>
      if has_slash p' then String c (head_part p')
      else if Ascii.eqb c slash then String c EmptyString
      else EmptyString
  end.

(** [os.path.dirname(p)] *)
Definition dirname (p : string) : string :=
  let head := head_part p in
  if negb (bool_decide (head = "")) && negb (Str.all_chars (Ascii.eqb slash) head)
  then Str.rstrip_by (Ascii.eqb slash) head
  else head.

(** [os.path.basename(p)] *)
Definition basename (p : string) : string :=
  Str.drop (String.length (head_part p)) p.

(** A name a directory entry can bear. *)
Definition plain (n : string) : bool :=
  negb (bool_decide (n = "")) && negb (bool_decide (n = ".")) && negb (has_slash n).

Definition emit (cur : string) (l : list string) : list string :=
  if bool_decide (cur = "") || bool_decide (cur = ".") then l else cur :: l.

(** The names a path walks through: the pieces between slashes, without the
    empty ones and the "." ones. *)
Fixpoint components_go (cur : string) (s : string) : list string :=
  match s with
  | EmptyString => emit cur []
  | String c s' =>
      if Ascii.eqb c slash then emit cur (components_go EmptyString s')
      else components_go (cur +:+ String c EmptyString) s'
  end.

Definition components (p : string) : list string := components_go EmptyString p.

End Path.

Example dirname_ex1 : Path.dirname "out/safety_check.out" = "out".
Proof. reflexivity. Qed.
Example dirname_ex2 : Path.dirname "x.out" = "".
Proof. reflexivity. Qed.
Example dirname_ex3 : Path.dirname "/x.out" = "/".
Proof. reflexivity. Qed.
Example dirname_ex4 : Path.dirname "a//b/c.out" = "a//b".
Proof. reflexivity. Qed.
Example basename_ex1 : Path.basename "a/b/c.mps" = "c.mps".
Proof. reflexivity. Qed.
Example join_ex1 : Path.join "res/" "a.yml" = "res/a.yml".
Proof. reflexivity. Qed.
Example join_ex2 : Path.join "res" "a.yml" = "res/a.yml".
Proof. reflexivity. Qed.
Example components_ex1 : Path.components "./res//a.yml" = ["res"; "a.yml"].
Proof. reflexivity. Qed.
Example split_ex1 : Str.split ".mps" "air05.mps.gz" = ["air05"; ".gz"].
Proof. reflexivity. Qed.
Example split_ex2 : Str.split "/" "a/b/" = ["a"; "b"; ""].
Proof. reflexivity. Qed.

(** ** The file system

    A node is a regular file with its content or a directory.  The tree is a
    finite map from the list of names that leads to a node, relative paths
    being read from the root; there are no symbolic links, ".." is not
    resolved and a trailing slash is not told apart.  What [yaml.dump] writes is kept as the mapping itself, which
    [yaml.safe_load] gives back; any other text is a list of lines. *)

Inductive content :=
| Lines (ls : list string)
| YamlMap (d : gmap string pyval).

Inductive node :=
| File (c : content)
| Dir.

Abbreviation filesystem := (gmap (list string) node).

Module FS.

(** The node a path string names; the empty string names nothing and the
    root is a directory. *)
Definition lookup (fs : filesystem) (p : string) : option node :=
  if bool_decide (p = "") then None
  else match Path.components p with
       | [] => Some Dir
       | k => fs !! k
       end.

(** [os.path.isfile(p)] and [os.path.isdir(p)] *)
Definition isfile (fs : filesystem) (p : string) : bool :=
  match lookup fs p with Some (File _) => true | _ => false end.

Definition isdir (fs : filesystem) (p : string) : bool :=
  match lookup fs p with Some Dir => true | _ => false end.

(** The entry name of key [k] when [k] lies directly in the directory with
    key [d]. *)
Definition child_name (d k : list string) : option string :=
  match reverse k with
  | n :: rd => if bool_decide (reverse rd = d) && Path.plain n then Some n else None
  | [] => None
  end.

Definition entries (fs : filesystem) (d : list string) : list string :=
  omap (child_name d) (map_to_list fs).*1.

(** [os.listdir(p)] *)
Definition listdir (fs : filesystem) (p : string) : outcome (list string) :=
  match lookup fs p with
  | Some Dir => Ok (entries fs (Path.components p))
  | Some (File _) => Raise NotADirectoryError
  | None => Raise FileNotFoundError
  end.

(** [os.remove(p)] *)
Definition remove (fs : filesystem) (p : string) : outcome unit * filesystem :=
  match lookup fs p with
  | Some (File _) => (Ok (), delete (Path.components p) fs)
  | Some Dir => (Raise IsADirectoryError, fs)
  | None => (Raise FileNotFoundError, fs)
  end.

(** The directory a new entry at [p] would lie in exists. *)
Definition parent_isdir (fs : filesystem) (p : string) : bool :=
  match reverse (Path.components p) with
  | _ :: [] => true
  | _ :: rd => match fs !! reverse rd with Some Dir => true | _ => false end
  | [] => false
  end.

(** [open(p, 'w')] followed by writing [c] and closing. *)
Definition write (fs : filesystem) (p : string) (c : content) : outcome unit * filesystem :=
  match lookup fs p with
  | Some Dir => (Raise IsADirectoryError, fs)
  | Some (File _) => (Ok (), <[Path.components p := File c]> fs)
  | None =>
      if parent_isdir fs p then (Ok (), <[Path.components p := File c]> fs)
      else (Raise FileNotFoundError, fs)
  end.

(** [open(p)] followed by reading everything. *)
Definition read (fs : filesystem) (p : string) : outcome content :=
  match lookup fs p with
  | Some (File c) => Ok c
  | Some Dir => Raise IsADirectoryError
  | None => Raise FileNotFoundError
  end.

End FS.

(** ** Built-in conversions *)

Module Py.

(** The whitespace [int()] passes over at both ends of an ASCII string. *)
Definition int_space (c : ascii) : bool :=
  let n := nat_of_ascii c in
  (n =? 32)%nat || ((9 <=? n)%nat && (n <=? 13)%nat) || ((28 <=? n)%nat && (n <=? 31)%nat).

(** Decimal digits with single underscores between them. *)
Fixpoint digits_go (acc : Z) (after_digit : bool) (s : string) : option Z :=
  match s with
  | EmptyString => if after_digit then Some acc else None
  | String c s' =>
      if Str.is_digit c then digits_go (10 * acc + Str.digit_value c) true s'
      else if Ascii.eqb c "_"%char && after_digit then
        match s' with
        | String d _ => if Str.is_digit d then digits_go acc false s' else None
        | EmptyString => None
        end
      else None
  end.

(** [int(s)] for an ASCII string; [None] stands for [ValueError]. *)
Definition int_of_str (s : string) : option Z :=
  match Str.strip_by int_space s with
  | String "-"%char r => Z.opp <$> digits_go 0 false r
  | String "+"%char r => digits_go 0 false r
  | t => digits_go 0 false t
  end.

Definition hex_digit (n : nat) : ascii :=
  if (n <? 10)%nat then ascii_of_nat (48 + n) else ascii_of_nat (87 + n).

Definition dquote : ascii := "034"%char.
Definition squote : ascii := "039"%char.
Definition backslash : ascii := "092"%char.

Fixpoint has_char (q : ascii) (b : string) : bool :=
  match b with
  | EmptyString => false
  | String c b' => Ascii.eqb c q || has_char q b'
  end.

(** One byte of a bytes literal, as [repr] writes it between quotes [q]. *)
Definition repr_byte (q : ascii) (c : ascii) : string :=
  let n := nat_of_ascii c in
  if Ascii.eqb c q || Ascii.eqb c backslash then String backslash (String c EmptyString)
  else if (n =? 9)%nat then String backslash "t"
  else if (n =? 10)%nat then String backslash "n"
  else if (n =? 13)%nat then String backslash "r"
  else if (n <? 32)%nat || (127 <=? n)%nat
  then String backslash (String "x"%char
         (String (hex_digit (n / 16)) (String (hex_digit (n mod 16)) EmptyString)))
  else String c EmptyString.

Fixpoint repr_body (q : ascii) (b : string) : string :=
  match b with
  | EmptyString => EmptyString
  | String c b' => repr_byte q c +:+ repr_body q b'
  end.

(** [str(b)] for a [bytes] object [b]: its literal, in double quotes when
    [b] holds a single quote and no double quote. *)
Definition str_of_bytes (b : string) : string :=
  let q := if has_char squote b && negb (has_char dquote b) then dquote else squote in
  String "b"%char (String q (repr_body q b +:+ String q EmptyString)).

End Py.

Example int_of_str_ex1 : Py.int_of_str " 1_024 " = Some 1024.
Proof. reflexivity. Qed.
Example int_of_str_ex2 : Py.int_of_str "-17" = Some (-17).
Proof. reflexivity. Qed.
Example int_of_str_ex3 : Py.int_of_str "12a" = None.
Proof. reflexivity. Qed.
Example int_of_str_ex4 : Py.int_of_str "" = None.
Proof. reflexivity. Qed.
Example str_of_bytes_ex1 :
  Py.str_of_bytes "Submitted batch job 42" = "b'Submitted batch job 42'".
Proof. reflexivity. Qed.

(** ** The state of the world and the monad of the program *)

(** What the controller can observe and cause: the file system, the commands
    handed to the scheduler so far (oldest first), and the lengths of the
    sleeps taken so far (oldest first). *)
Record world := World {
  fs : filesystem;
  submitted : list (list string);
  sleeps : list Z;
}.

(** The scheduler and the jobs it runs are outside the program.  While the
    controller waits for a command or sleeps, they may change the file system
    in any way; what they do may depend on everything that happened so far. *)
Record environment := Environment {
  (** what the command prints on its standard output *)
  popen_stdout : world → list string → string;
  (** the file system when [p.wait()] returns *)
  popen_effect : world → list string → filesystem;
  (** the file system when [time.sleep(t)] returns *)
  sleep_effect : world → Z → filesystem;
}.

Definition M (A : Type) : Type := world → outcome A * world.

Definition ret {A} (a : A) : M A := λ w, (Ok a, w).

Definition bind {A B} (m : M A) (k : A → M B) : M B :=
  λ w, match m w with
       | (Ok a, w') => k a w'
       | (Raise e, w') => (Raise e, w')
       | (Diverge, w') => (Diverge, w')
       end.

Global Instance M_ret : MRet M := @ret.
Global Instance M_bind : MBind M := λ A B k m, bind m k.
Global Instance M_fmap : FMap M := λ A B f m, bind m (λ a, ret (f a)).

Definition raise {A} (e : exn) : M A := λ w, (Raise e, w).

(** [assert b] *)
Definition assert (b : bool) : M unit :=
  if b then ret () else raise AssertionError.

Definition lift {A} (o : outcome A) : M A := λ w, (o, w).

Definition of_option {A} (e : exn) (o : option A) : M A :=
  match o with Some a => ret a | None => raise e end.

Definition get_fs : M filesystem := λ w, (Ok (fs w), w).

Definition on_fs {A} (f : filesystem → outcome A * filesystem) : M A :=
  λ w, let '(r, fs') := f (fs w) in
       (r, {| fs := fs'; submitted := submitted w; sleeps := sleeps w |}).

(** [for x in l: body(x)] *)
Fixpoint for_each {A} (l : list A) (body : A → M unit) : M unit :=
  match l with
  | [] => ret ()
  | x :: l' => body x;; for_each l' body
  end.

(** ** parameters.py *)

Module parameters.
Definition SLURM_CONSTRAINT : string := "Xeon&Gold6342".
Definition SLURM_TRAIN_MEMORY : option Z := Some 2000.
Definition SCIP_TRAIN_MEMORY : Z := 2000.
Definition SLURM_TEST_MEMORY : Z := 90000.
Definition TRAINING_SET_TIME_LIMIT_WITHOUT_SOLUTION : Z := 120.
Definition TRAINING_SET_TIME_LIMIT_WITH_SOLUTION : Z := 120.
Definition TRAINING_SET_MIN_TIME_LIMIT : Z := 5.
Definition TRAINING_SET_PRESOLVE_TIME_LIMIT : Z := 10.
Definition TRAINING_SET_MIN_NODES : Z := 50.
Definition TRAINING_SET_MAX_NODES : Z := 20000.
End parameters.

Section Program.

(** [repr] of a float and [float()] of a string are the interpreter's. *)
Variable float_repr : float → string.
Variable float_of_str : string → option float.
Variable env : environment.

(** ['{}'.format(v)] *)
Definition format (v : pyval) : string :=
  match v with
  | PyNone => "None"
  | PyBool true => "True"
  | PyBool false => "False"
  | PyInt z => pretty z
  | PyFloat f => float_repr f
  | PyStr s => s
  end.

(** [subprocess.Popen(cmd, ...)] followed by [p.wait()]; the result is what
    the command wrote on its standard output. *)
Definition popen (cmd : list string) : M string :=
  λ w, (Ok (popen_stdout env w cmd),
        {| fs := popen_effect env w cmd;
           submitted := submitted w ++ [cmd];
           sleeps := sleeps w |}).

(** [time.sleep(t)] *)
Definition sleep (t : Z) : M unit :=
  λ w, (Ok (),
        {| fs := sleep_effect env w t;
           submitted := submitted w;
           sleeps := sleeps w ++ [t] |}).

(** *** utilities.py: remove_temp_files *)

Definition remove_temp_files (temp_dir : string) : M unit :=
  fs ← get_fs;
  files ← lift (FS.listdir fs temp_dir);
  for_each files (λ file, on_fs (λ fs, FS.remove fs (Path.join temp_dir file))).

(** *** utilities.py: run_python_slurm_job *)

(** [type(time_limit) == int and 0 <= time_limit <= 1e+8] *)
Definition time_limit_ok (time_limit : pyval) : bool :=
  match time_limit with
  | PyInt z => (0 <=? z) && (z <=? 100000000)
  | _ => false
  end.

Definition is_int (v : pyval) : bool :=
  match v with PyInt _ => true | _ => false end.

(** [s[:-1]] *)
Definition drop_last (s : string) : string :=
  Str.take (String.length s - 1) s.

(** [''.join([str(dependency) + ':' for dependency in dependencies])[:-1]] *)
Definition dependency_str (dependencies : list pyval) : string :=
  drop_last (Str.join "" (map (λ dependency, format dependency +:+ ":") dependencies)).

(** The part of the command that names the jobs to wait for. *)
Definition dependency_args (dependencies : list pyval) : list string :=
  if (0 <? length dependencies)%nat
  then ["--dependency=afterany:" +:+ dependency_str dependencies]
  else [].

Definition cmd_1 (job_name : string) (time_limit : pyval) (exclusive : bool) : list string :=
  ["sbatch"; "--job-name=" +:+ job_name; "--time=0-00:00:" +:+ format time_limit;
   "--cpus-per-task=1"] ++
  (if exclusive then ["--exclusive"] else ["--ntasks=1"]).

Definition mem_args (exclusive : bool) : list string :=
  if exclusive then ["--mem=" +:+ pretty parameters.SLURM_TEST_MEMORY]
  else match parameters.SLURM_TRAIN_MEMORY with
       | Some m => ["--mem=" +:+ pretty m]
       | None => []
       end.

Definition cmd_2 (dependencies : list pyval) (exclusive : bool) : list string :=
  mem_args exclusive ++ dependency_args dependencies.

Definition cmd_3 (python_file outfile : string) (exclusive : bool) : list string :=
  if exclusive then
    ["--constraint=" +:+ parameters.SLURM_CONSTRAINT; "--output"; outfile; "--error"; outfile;
     "-A"; "PUT EXCLUSIVE GROUP HERE"; "--partition=PUT EXCLUSIVE PARTITION HERE"; python_file]
  else
    ["--constraint=" +:+ parameters.SLURM_CONSTRAINT; "--output"; outfile; "--error"; outfile;
     "-A"; "PUT NON_EXCLUSIVE GROUP HERE"; "--partition=PUT NON_EXCLUSIVE PARTITION HERE";
     python_file].

(** The command line handed to the scheduler. *)
Definition slurm_cmd (python_file job_name outfile : string) (time_limit : pyval)
    (arg_list : list pyval) (dependencies : list pyval) (exclusive : bool) : list string :=
  cmd_1 job_name time_limit exclusive ++ cmd_2 dependencies exclusive ++
  cmd_3 python_file outfile exclusive ++ map format arg_list.

(** The first line of a binary stream, with its line feed when it has one. *)
Fixpoint first_line (out : string) : option string :=
  match out with
  | EmptyString => None
  | String c out' =>
      if Ascii.eqb c "010"%char then Some (String c EmptyString)
      else Some (String c (default EmptyString (first_line out')))
  end.

(** [job_line] after the loop over [p.stdout] *)
Definition job_line_of (out : string) : string :=
  match first_line out with
  | None => ""
  | Some line => Py.str_of_bytes (Str.rstrip_by Str.is_space line)
  end.

(** [job_line.split(' ')[-1].split("'")[0]] *)
Definition job_id_field (job_line : string) : string :=
  default "" (head (Str.split "'" (default "" (last (Str.split " " job_line))))).

Definition run_python_slurm_job (python_file job_name outfile : string) (time_limit : pyval)
    (arg_list : list pyval) (dependencies : option (list pyval)) (exclusive : bool) : M Z :=
  let dependencies := default [] dependencies in
  fs ← get_fs;
  assert (FS.isfile fs python_file && Str.endswith ".py" python_file);;
  assert (negb (FS.isfile fs outfile) && Str.endswith ".out" outfile);;
  assert (FS.isdir fs (Path.dirname outfile));;
  assert (time_limit_ok time_limit);;
  assert (forallb is_int dependencies);;
  let cmd := slurm_cmd python_file job_name outfile time_limit arg_list dependencies exclusive in
  out ← popen cmd;
  let job_line := job_line_of out in
  assert (Str.contains "Submitted batch job" job_line);;
  job_id ← of_option ValueError (Py.int_of_str (job_id_field job_line));
  ret job_id.

(** *** utilities.py: get_filename *)

Definition get_filename (parent_dir instance : string) (rand_seed permutation_seed : option pyval)
    (ext : option string) : string :=
  let base_file := instance in
  let base_file :=
    match rand_seed with
    | Some r => base_file +:+ "__seed__" +:+ format r
    | None => base_file
    end in
  let base_file :=
    match permutation_seed with
    | Some p => base_file +:+ "__permute__" +:+ format p
    | None => base_file
    end in
  let base_file :=
    match ext with
    | Some e => base_file +:+ "." +:+ e
    | None => base_file
    end in
  Path.join parent_dir base_file.

(** *** Slurm/generate_instance_subset.py: wait_for_jobs_to_finish *)

Definition diverge {A} : M A := λ w, (Diverge, w).

(** [while not os.path.isfile(marker): time.sleep(5)], given [fuel] rounds
    of sleeping. *)
Fixpoint poll (fuel : nat) (marker : string) : M unit :=
  fs ← get_fs;
  if FS.isfile fs marker then ret ()
  else match fuel with
       | O => diverge
       | S fuel' => sleep 5;; poll fuel' marker
       end.

Definition wait_for_jobs_to_finish (fuel : nat) (slurm_job_ids : list pyval)
    (outfiles_dir : string) : M unit :=
  let safety_file_no_ext := Path.join outfiles_dir "safety_check" in
  _ ← run_python_slurm_job "Slurm/safety_check.py" "cleaner"
        (safety_file_no_ext +:+ ".out") (PyInt 10)
        [PyStr (safety_file_no_ext +:+ ".txt")] (Some slurm_job_ids) false;
  sleep 5;;
  poll fuel (safety_file_no_ext +:+ ".txt").

(** *** Slurm/solve_instance.py: solve_model_and_extract_solve_info *)

(** What the solver reports once [scip.optimize()] has returned. *)
Record scip_model := ScipModel {
  getSolvingTime : float;
  getPresolvingTime : float;
  getNCutsApplied : Z;
  getNTotalNodes : Z;
  (** [len(scip.getSols())] *)
  getNSols : nat;
  getObjVal : float;
  getGap : float;
  getDualbound : float;
  getNLPIterations : Z;
  getStatus : string;
  getNSepaRounds : Z;
  (** the lines [scip.writeStatistics] writes *)
  statistics : list string;
}.

(** The entries of [data] set before the statistics file is looked at. *)
Definition solve_info (scip : scip_model) : gmap string pyval :=
  let has_sol := (0 <? getNSols scip)%nat in
  let primal_bound := if has_sol then getObjVal scip else 1e+20%float in
  <["num_sepa_rounds" := PyInt (getNSepaRounds scip)]> (
  <["primal_dual_difference" :=
      PyFloat (if has_sol then PrimFloat.sub primal_bound (getDualbound scip)
               else 1e+20%float)]> (
  <["status" := PyStr (getStatus scip)]> (
  <["num_lp_iterations" := PyInt (getNLPIterations scip)]> (
  <["dual_bound" := PyFloat (getDualbound scip)]> (
  <["gap" := PyFloat (if has_sol then getGap scip else 1e+20%float)]> (
  <["primal_bound" := PyFloat primal_bound]> (
  <["num_nodes" := PyInt (getNTotalNodes scip)]> (
  <["num_cuts" := PyInt (getNCutsApplied scip)]> (
  <["presolve_time" := PyFloat (getPresolvingTime scip)]> (
  <["solve_time" := PyFloat (getSolvingTime scip)]> ∅)))))))))).

(** [for x in l: s = body(x, s)] *)
Fixpoint fold_m {A S} (l : list A) (body : A → S → M S) (s : S) : M S :=
  match l with
  | [] => ret s
  | x :: l' => s' ← body x s; fold_m l' body s'
  end.

(** [int(stats[line_i + 7][42:53])] *)
Definition lp_iterations_field (stats : list string) (line_i : nat) : M Z :=
  l ← of_option IndexError (stats !! (line_i + 7)%nat);
  of_option ValueError (Py.int_of_str (Str.slice 42 53 l)).

(** The body of the loop over the lines of the statistics file. *)
Definition read_stats_line (stats : list string) (item : nat * string)
    (data : gmap string pyval) : M (gmap string pyval) :=
  let '(line_i, line) := item in
  data ←
    (if Str.contains "primal-dual" line then
       x ← of_option IndexError (Str.split ":" line !! 1%nat);
       y ← of_option IndexError (Str.split "     " x !! 1%nat);
       f ← of_option ValueError (float_of_str y);
       ret (<["primal_dual_integral" := PyFloat f]> data)
     else ret data);
  data ←
    (if Str.contains "number of runs" line then
       x ← of_option IndexError (Str.split ":" line !! 1%nat);
       f ← of_option ValueError (float_of_str (Str.strip_by (Ascii.eqb " "%char) x));
       ret (<["num_runs" := PyFloat f]> data)
     else ret data);
  if Str.contains "LP                 " line then
    sb_iters ← lp_iterations_field stats line_i;
    conflict_iters ← lp_iterations_field stats line_i;
    match data !! "num_lp_iterations" with
    | Some (PyInt n) =>
        ret (<["num_total_lp_iterations" := PyInt (n + sb_iters + conflict_iters)]> data)
    | Some _ => raise TypeError
    | None => raise KeyError
    end
  else ret data.

(** [s.readlines()]; a file is read back as the lines it was written as. *)
Definition readlines (c : content) : list string :=
  match c with
  | Lines ls => ls
  | YamlMap _ => []
  end.

Definition solve_model_and_extract_solve_info (scip : scip_model)
    (rand_seed permutation_seed : pyval) (instance results_dir : string)
    (print_stats : bool) : M unit :=
  let data := solve_info scip in
  let stat_file :=
    get_filename results_dir instance (Some rand_seed) (Some permutation_seed) (Some "stats") in
  fs ← get_fs;
  assert (negb (FS.isfile fs stat_file));;
  on_fs (λ fs, FS.write fs stat_file (Lines (statistics scip)));;
  data ←
    (if bool_decide (getStatus scip ∈ ["optimal"; "timelimit"; "nodelimit"; "memlimit"]) then
       fs ← get_fs;
       c ← lift (FS.read fs stat_file);
       let stats := readlines c in
       fold_m (imap pair stats) (read_stats_line stats) data
     else ret data);
  (if negb print_stats then on_fs (λ fs, FS.remove fs stat_file) else ret ());;
  let yml_file :=
    get_filename results_dir instance (Some rand_seed) (Some permutation_seed) (Some "yml") in
  on_fs (λ fs, FS.write fs yml_file (YamlMap data)).

(** *** Slurm/generate_instance_subset.py: filter_instances *)

(** [shutil.copy(src, dst)] *)
Definition copy (src dst : string) : M unit :=
  fs ← get_fs;
  let dst := if FS.isdir fs dst then Path.join dst (Path.basename src) else dst in
  if bool_decide (is_Some (FS.lookup fs src)) && bool_decide (is_Some (FS.lookup fs dst)) &&
     bool_decide (Path.components src = Path.components dst)
  then raise SameFileError
  else c ← lift (FS.read fs src);
       on_fs (λ fs, FS.write fs dst c).

(** [yaml.safe_load] of an open file.  A file that does not hold a mapping
    makes the parser raise, or the look-up of ['status'] in what it returns. *)
Definition safe_load (c : content) : M (gmap string pyval) :=
  match c with
  | YamlMap d => ret d
  | Lines _ => raise TypeError
  end.

(** [d[key]] *)
Definition getitem (d : gmap string pyval) (key : string) : M pyval :=
  of_option KeyError (d !! key).

(** [v == s] for a string literal [s] *)
Definition eq_str (v : pyval) (s : string) : bool :=
  match v with
  | PyStr t => bool_decide (t = s)
  | _ => false
  end.

(** An integer threshold of parameters.py as a float; the thresholds are
    small enough for the conversion to be exact, so comparing with the float
    is comparing with the integer, as Python does. *)
Definition float_of_threshold (c : Z) : float :=
  PrimFloat.of_uint63 (Uint63.of_Z c).

(** [c <= v] and [v <= c] for an integer threshold [c]; a [bool] counts as
    the integer 0 or 1, and a string or [None] cannot be compared. *)
Definition le_threshold_val (c : Z) (v : pyval) : M bool :=
  match v with
  | PyInt z => ret (c <=? z)
  | PyBool b => ret (c <=? Z.b2z b)
  | PyFloat f => ret (PrimFloat.leb (float_of_threshold c) f)
  | PyStr _ | PyNone => raise TypeError
  end.

Definition le_val_threshold (v : pyval) (c : Z) : M bool :=
  match v with
  | PyInt z => ret (z <=? c)
  | PyBool b => ret (Z.b2z b <=? c)
  | PyFloat f => ret (PrimFloat.leb f (float_of_threshold c))
  | PyStr _ | PyNone => raise TypeError
  end.

(** The four nested tests on a loaded record. *)
Definition suitable (instance_data : gmap string pyval) : M bool :=
  status ← getitem instance_data "status";
  if eq_str status "optimal" then
    num_nodes ← getitem instance_data "num_nodes";
    lo ← le_threshold_val parameters.TRAINING_SET_MIN_NODES num_nodes;
    hi ← (if (lo : bool) then le_val_threshold num_nodes parameters.TRAINING_SET_MAX_NODES
          else ret false);
    if (hi : bool) then
      solve_time ← getitem instance_data "solve_time";
      slow ← le_threshold_val parameters.TRAINING_SET_MIN_TIME_LIMIT solve_time;
      if (slow : bool) then
        presolve_time ← getitem instance_data "presolve_time";
        le_val_threshold presolve_time parameters.TRAINING_SET_PRESOLVE_TIME_LIMIT
      else ret false
    else ret false
  else ret false.

(** The body of the loop that reads the records back. *)
Definition collect_step (results_dir : string) (instances : list string) (i : nat)
    (good_instance_ids : list nat) : M (list nat) :=
  instance ← of_option IndexError (instances !! i);
  let yml_file :=
    get_filename results_dir instance (Some (PyInt 0)) (Some (PyInt 0)) (Some "yml") in
  fs ← get_fs;
  if negb (FS.isfile fs yml_file) then ret good_instance_ids
  else
    c ← lift (FS.read fs yml_file);
    instance_data ← safe_load c;
    keep ← suitable instance_data;
    ret (if (keep : bool) then good_instance_ids ++ [i] else good_instance_ids).

Definition collect (results_dir : string) (instances : list string) : M (list nat) :=
  fold_m (seq 0 (length instances)) (collect_step results_dir instances) [].

(** [[l[i] for i in ids]] *)
Definition select {A} (l : list A) (ids : list nat) : M (list A) :=
  fold_m ids (λ i acc, x ← of_option IndexError (l !! i); ret (acc ++ [x])) [].

(** The floats [0.2] and [0.4], that is the binary64 values nearest to them. *)
Definition float_0_2 : float := 0x1.999999999999ap-3%float.
Definition float_0_4 : float := 0x1.999999999999ap-2%float.

(** The body of the loop that submits one job per instance. *)
Definition submit_step (instance_paths instances solution_paths : list string)
    (results_dir outfiles_dir : string) (load_solutions print_solutions : bool) (i : nat)
    (slurm_job_ids : list pyval) : M (list pyval) :=
  let r := PyInt 0 in
  let p := PyInt 0 in
  instance ← of_option IndexError (instances !! i);
  instance_path ← of_option IndexError (instance_paths !! i);
  load_solution_path ←
    (if load_solutions then PyStr <$> of_option IndexError (solution_paths !! i)
     else ret PyNone);
  print_solution_path ←
    (if print_solutions then PyStr <$> of_option IndexError (solution_paths !! i)
     else ret PyNone);
  let scip_time_lim :=
    if load_solutions then parameters.TRAINING_SET_TIME_LIMIT_WITH_SOLUTION
    else parameters.TRAINING_SET_TIME_LIMIT_WITHOUT_SOLUTION in
  ji ← run_python_slurm_job "Slurm/solve_instance.py"
         (instance +:+ "--" +:+ format r +:+ "--" +:+ format p)
         (Path.join outfiles_dir
            ("%j__" +:+ instance +:+ "__" +:+ format r +:+ "__" +:+ format p +:+ ".out"))
         (PyInt (2 * scip_time_lim))
         [PyStr results_dir; PyStr instance_path; PyStr instance; r; p; PyInt scip_time_lim;
          PyBool true; print_solution_path; load_solution_path; PyBool true;
          PyFloat 0; PyFloat 0; PyFloat 0; PyFloat 0; PyFloat 0; PyFloat 0; PyFloat 0;
          PyFloat 1; PyInt 1; PyInt 1; PyFloat 1; PyFloat float_0_2; PyFloat float_0_4;
          PyBool false; PyBool true; PyBool false; PyBool false]
         None false;
  ret (slurm_job_ids ++ [PyInt ji]).

Definition filter_instances (fuel : nat) (instance_paths : list string)
    (solution_dir results_dir outfiles_dir instance_subset_dir : string)
    (load_solutions print_solutions : bool) : M (list string) :=
  remove_temp_files results_dir;;
  remove_temp_files outfiles_dir;;
  let instance_files :=
    map (λ instance_path, default "" (last (Str.split "/" instance_path))) instance_paths in
  let instances :=
    map (λ instance_file, default "" (head (Str.split ".mps" instance_file))) instance_files in
  let solution_paths :=
    map (λ instance, Path.join solution_dir (instance +:+ ".sol")) instances in
  slurm_job_ids ←
    fold_m (seq 0 (length instances))
      (submit_step instance_paths instances solution_paths results_dir outfiles_dir
         load_solutions print_solutions) [];
  wait_for_jobs_to_finish fuel slurm_job_ids outfiles_dir;;
  if print_solutions then ret instance_paths
  else
    good_instance_ids ← collect results_dir instances;
    remove_temp_files instance_subset_dir;;
    for_each good_instance_ids (λ i,
      instance_path ← of_option IndexError (instance_paths !! i);
      instance_file ← of_option IndexError (instance_files !! i);
      copy instance_path (Path.join instance_subset_dir instance_file));;
    select instance_paths good_instance_ids.

End Program.

(** ** The rest of utilities.py and the configuration reader *)

Section Tools.

Variable float_repr : float → string.
Variable float_of_str : string → option float.


Definition is_bool (v : pyval) : bool :=
  match v with PyBool _ => true | _ => false end.

Definition is_none (v : pyval) : bool :=
  match v with PyNone => true | _ => false end.

(** *** utilities.py: get_slurm_output_file *)


(** *** utilities.py: build_scip_model *)

(** The solver is outside the program.  A model is what the calls made on
    it leave behind: the calls themselves, oldest first, each taken to
    return. *)
Inductive scip_call :=
  | setParam (name : string) (value : pyval)
  | setPresolve_OFF
  | setSeparating_OFF
  | setHeuristics_OFF
  | disablePropagation
  | readProblem (path : string)
  | readSolFile (path : string)
  | addSol.

(** [v > 0] *)
Definition gt_zero (v : pyval) : M bool :=
  match v with
  | PyInt z => ret (0 <? z)
  | PyBool b => ret b
  | PyFloat f => ret (PrimFloat.ltb 0%float f)
  | PyStr _ | PyNone => raise TypeError
  end.

(** [not v] for a value known to be a [bool] *)
Definition is_false (v : pyval) : bool :=
  match v with PyBool false => true | _ => false end.

Definition build_scip_model (instance_path : string)
    (node_lim rand_seed pre_solve propagation separators heuristics permutation_seed : pyval)
    (time_limit : pyval) (sol_path : option string) (default_cutsel : bool) :
    M (list scip_call) :=
  fs ← get_fs;
  assert (bool_decide (is_Some (FS.lookup fs instance_path)));;
  assert (is_int node_lim && is_int rand_seed);;
  assert (forallb is_bool [pre_solve; propagation; separators; heuristics]);;
  let scip := [setParam "limits/nodes" node_lim;
               setParam "limits/memory" (PyInt parameters.SCIP_TRAIN_MEMORY)] in
  let scip :=
    if negb (is_none time_limit) then scip ++ [setParam "limits/time" time_limit]
    else scip in
  let scip := scip ++ [setParam "timing/clocktype" (PyInt 1); setParam "lp/threads" (PyInt 1)] in
  permute ← gt_zero permutation_seed;
  let scip :=
    if (permute : bool) then
      scip ++ [setParam "randomization/permutevars" (PyBool true);
               setParam "randomization/permutationseed" rand_seed]
    else scip in
  let scip := scip ++ [setParam "randomization/randomseedshift" rand_seed] in
  let scip := if is_false pre_solve then scip ++ [setPresolve_OFF] else scip in
  let scip := if is_false separators then scip ++ [setSeparating_OFF] else scip in
  let scip := if is_false separators then scip ++ [setHeuristics_OFF] else scip in
  let scip := if is_false propagation then scip ++ [disablePropagation] else scip in
  let scip := scip ++ [readProblem instance_path] in
  scip ←
    match sol_path with
    | Some sol_path =>
        fs ← get_fs;
        assert (FS.isfile fs sol_path && Str.contains ".sol" sol_path);;
        ret (scip ++ [readSolFile sol_path; addSol; setHeuristics_OFF])
    | None => ret scip
    end;
  ret (if negb default_cutsel
       then scip ++ [setParam "cutselection/ensemble/priority" (PyInt 100000)]
       else scip ++ [setParam "cutselection/hybrid/priority" (PyInt 100000)]).

(** *** Slurm/test_configuration.py: read_config_file *)

(** [line.split(": ")[-1].split("\n")[0]] *)
Definition config_value (line : string) : string :=
  default "" (head (Str.split (String "010" "") (default "" (last (Str.split ": " line))))).

(** The value a hyperparameter's text stands for: the two words for the
    booleans, else what [float] makes of it; [None] stands for the
    [ValueError] of [float]. *)
Definition config_convert (text : string) : option pyval :=
  if bool_decide (text = "True") then Some (PyBool true)
  else if bool_decide (text = "False") then Some (PyBool false)
  else PyFloat <$> float_of_str text.

(** The inner loop, over the hyperparameters, for one line. *)
Definition read_config_line (hyperparameters : list string) (line : string)
    (config_dict : gmap string pyval) : M (gmap string pyval) :=
  fold_m hyperparameters
    (λ hyperparameter config_dict,
       if Str.startswith (hyperparameter +:+ ": ") line then
         value ← of_option ValueError (config_convert (config_value line));
         ret (<[hyperparameter := value]> config_dict)
       else ret config_dict)
    config_dict.

(** [[f(x) for x in l]] *)
Fixpoint map_m {A B} (f : A → M B) (l : list A) : M (list B) :=
  match l with
  | [] => ret []
  | x :: l' => y ← f x; ys ← map_m f l'; ret (y :: ys)
  end.

Definition read_config_file (config_file : string) (hyperparameters : list string) :
    M (list pyval) :=
  fs ← get_fs;
  c ← lift (FS.read fs config_file);
  let lines := readlines c in
  config_dict ← fold_m lines (read_config_line hyperparameters) ∅;
  map_m (getitem config_dict) hyperparameters.

End Tools.

(** * Properties *)

(** ** str_to_bool *)

(** The spellings [str_to_bool] accepts. *)
Definition true_spellings : list string :=
  ["yes"; "yeS"; "yEs"; "yES"; "Yes"; "YeS"; "YEs"; "YES";
   "true"; "truE"; "trUe"; "trUE"; "tRue"; "tRuE"; "tRUe"; "tRUE";
   "True"; "TruE"; "TrUe"; "TrUE"; "TRue"; "TRuE"; "TRUe"; "TRUE";
   "t"; "T"; "1"].

Lemma lower_char_inv (a c : ascii) :
  Str.lower_char a = c →
  a = c ∨ (Str.is_upper a = true ∧ a = ascii_of_nat (nat_of_ascii c - 32)).
Proof.
  intros <-. destruct a as [[] [] [] [] [] [] [] []]; vm_compute; auto.
Qed.

Lemma lower_nil_inv s : Str.lower s = "" → s = "".
Proof. by destruct s. Qed.

Lemma lower_cons_inv s c t :
  Str.lower s = String c t →
  ∃ a s', s = String a s' ∧ Str.lower s' = t ∧
          (a = c ∨ (Str.is_upper a = true ∧ a = ascii_of_nat (nat_of_ascii c - 32))).
Proof.
  destruct s as [|a s']; [done|]. simpl. intros [= Ha Ht].
  exists a, s'. split_and!; [done..|]. by apply lower_char_inv.
Qed.

Ltac invert_lower H :=
  repeat match type of H with
  | Str.lower _ = String _ _ =>
      let a := fresh "a" in let s' := fresh "s" in let Ha := fresh "Ha" in
      apply lower_cons_inv in H as (a & s' & -> & H & Ha);
      destruct Ha as [-> | [Ha ->]]; [|vm_compute in Ha; try discriminate Ha; clear Ha]
  | Str.lower _ = EmptyString => apply lower_nil_inv in H as ->
  end.

Lemma lower_true_words_spellings s :
  Str.lower s ∈ true_words ↔ s ∈ true_spellings.
Proof.
  split.
  - unfold true_words. rewrite !elem_of_cons, elem_of_nil.
    intros [H | [H | [H | [H | []]]]]; invert_lower H;
      unfold true_spellings; rewrite !elem_of_cons;
      repeat (first [left; reflexivity | right]).
  - unfold true_spellings. rewrite !elem_of_cons, elem_of_nil.
    intros H.
    repeat (destruct H as [-> | H]; [apply (bool_decide_unpack _); by vm_compute |]).
    done.
Qed.

(** C10.  For a string [word], [str_to_bool] raises nothing and answers
    whether the lowercased word is one of "yes", "true", "t", "1", that is
    whether [word] is one of those four in some mix of upper and lower case;
    "False" and "no" give [False]. *)
Theorem str_to_bool_spec (word : string) :
  str_to_bool (PyStr word) = Ok (bool_decide (Str.lower word ∈ ["yes"; "true"; "t"; "1"])) ∧
  (str_to_bool (PyStr word) = Ok true ↔ word ∈ true_spellings) ∧
  (str_to_bool (PyStr word) = Ok false ↔ word ∉ true_spellings) ∧
  str_to_bool (PyStr "False") = Ok false ∧
  str_to_bool (PyStr "no") = Ok false.
Proof.
  split_and!; try reflexivity.
  - unfold str_to_bool. rewrite <- lower_true_words_spellings.
    split; [intros [= H]; by apply bool_decide_eq_true in H|].
    intros H. by rewrite bool_decide_eq_true_2.
  - unfold str_to_bool. rewrite <- lower_true_words_spellings.
    split; [intros [= H]; by apply bool_decide_eq_false in H|].
    intros H. by rewrite bool_decide_eq_false_2.
Qed.

(** ** The job submitter *)

Section Submitter.

Variable float_repr : float → string.
Variable env : environment.

Lemma time_limit_ok_iff (time_limit : pyval) :
  time_limit_ok time_limit = true ↔ ∃ z, time_limit = PyInt z ∧ 0 ≤ z ≤ 100000000.
Proof.
  destruct time_limit as [| b | z | f | s]; simpl;
    try (split; [done | by intros (? & ? & ?)]).
  rewrite andb_true_iff, !Z.leb_le. split.
  - intros ?. by exists z.
  - by intros (? & [= <-] & ?).
Qed.

(** The world after the scheduler command of a submission has run. *)
Definition after_popen (w : world) (cmd : list string) : world :=
  {| fs := popen_effect env w cmd; submitted := submitted w ++ [cmd]; sleeps := sleeps w |}.

(** The checks made before the scheduler is called. *)
Definition submit_checks (w : world) (python_file outfile : string) (time_limit : pyval)
    (dependencies : list pyval) : bool :=
  (FS.isfile (fs w) python_file && Str.endswith ".py" python_file) &&
  (negb (FS.isfile (fs w) outfile) && Str.endswith ".out" outfile) &&
  FS.isdir (fs w) (Path.dirname outfile) &&
  time_limit_ok time_limit &&
  forallb is_int dependencies.

(** The two ways a submission goes: a check fails and nothing happens, or the
    scheduler runs the command and its first line is read. *)
Lemma run_python_slurm_job_unfold python_file job_name outfile time_limit arg_list
    dependencies exclusive w :
  run_python_slurm_job float_repr env python_file job_name outfile time_limit arg_list
    dependencies exclusive w =
  if submit_checks w python_file outfile time_limit (default [] dependencies) then
    let cmd := slurm_cmd float_repr python_file job_name outfile time_limit arg_list
                 (default [] dependencies) exclusive in
    let job_line := job_line_of (popen_stdout env w cmd) in
    (if Str.contains "Submitted batch job" job_line then
       match Py.int_of_str (job_id_field job_line) with
       | Some job_id => Ok job_id
       | None => Raise ValueError
       end
     else Raise AssertionError,
     after_popen w cmd)
  else (Raise AssertionError, w).
Proof.
  unfold run_python_slurm_job, submit_checks, mbind, M_bind, bind, get_fs, assert, popen,
    after_popen, of_option, mret, M_ret, ret, raise.
  destruct w as [fs0 sub0 sl0]; simpl.
  repeat match goal with
         | |- context [if ?b then _ else _] => destruct b eqn:?; simpl; try done
         end.
  by destruct (Py.int_of_str _).
Qed.

(** C2.  A submission whose output path is an existing file, whose python
    file is not an existing [.py] file, whose output path lies in no existing
    directory, or whose time limit is not an integer between 0 and 1e8, fails
    with an assertion error and leaves the world as it was: no command has
    been handed to the scheduler. *)
Theorem run_python_slurm_job_guards python_file job_name outfile time_limit arg_list
    dependencies exclusive w :
  FS.isfile (fs w) outfile = true ∨
  ¬ (FS.isfile (fs w) python_file = true ∧ Str.endswith ".py" python_file = true) ∨
  FS.isdir (fs w) (Path.dirname outfile) = false ∨
  ¬ (∃ z, time_limit = PyInt z ∧ 0 ≤ z ≤ 100000000) →
  run_python_slurm_job float_repr env python_file job_name outfile time_limit arg_list
    dependencies exclusive w = (Raise AssertionError, w) ∧
  submitted (run_python_slurm_job float_repr env python_file job_name outfile time_limit
               arg_list dependencies exclusive w).2 = submitted w.
Proof.
  intros H.
  assert (submit_checks w python_file outfile time_limit (default [] dependencies) = false)
    as Hchk.
  { unfold submit_checks. apply not_true_is_false. rewrite !andb_true_iff.
    intros ((((Hpy & Hout) & Hdir) & Htime) & _).
    destruct H as [H | [H | [H | H]]].
    - rewrite H in Hout. by destruct Hout.
    - by apply H.
    - congruence.
    - apply H. by apply time_limit_ok_iff. }
  rewrite run_python_slurm_job_unfold, Hchk. done.
Qed.

(** *** The dependency clause *)

Lemma app_nil_r_str (s : string) : s +:+ "" = s.
Proof. induction s as [|c s IH]; [done|]. change (String c (s +:+ "") = String c s). by rewrite IH. Qed.

Lemma app_assoc_str (s t u : string) : (s +:+ t) +:+ u = s +:+ t +:+ u.
Proof.
  induction s as [|c s IH]; [done|].
  change (String c ((s +:+ t) +:+ u) = String c (s +:+ t +:+ u)). by rewrite IH.
Qed.

Lemma app_cons_str c (s t : string) : String c s +:+ t = String c (s +:+ t).
Proof. done. Qed.

Lemma app_eq_nil_str (s t : string) : s +:+ t = "" → s = "" ∧ t = "".
Proof. by destruct s. Qed.

Lemma drop_last_cons c (s : string) : s ≠ "" → drop_last (String c s) = String c (drop_last s).
Proof.
  destruct s as [|d s]; [done|]. intros _. unfold drop_last. simpl.
  by rewrite !Nat.sub_0_r.
Qed.

Lemma drop_last_app (s t : string) : t ≠ "" → drop_last (s +:+ t) = s +:+ drop_last t.
Proof.
  intros Ht. induction s as [|c s IH]; [done|].
  rewrite !app_cons_str, drop_last_cons, IH; [done|].
  intros [_ ?]%app_eq_nil_str. done.
Qed.

Lemma join_empty_cons (x : string) (l : list string) :
  Str.join "" (x :: l) = x +:+ Str.join "" l.
Proof. destruct l; simpl; [by rewrite app_nil_r_str | done]. Qed.

Lemma drop_last_join (xs : list string) :
  drop_last (Str.join "" ((λ x, x +:+ ":") <$> xs)) = Str.join ":" xs.
Proof.
  induction xs as [|x xs IH]; [done|].
  rewrite fmap_cons, join_empty_cons.
  destruct xs as [|y xs].
  - simpl. rewrite app_nil_r_str, drop_last_app by done. apply app_nil_r_str.
  - rewrite drop_last_app.
    + rewrite IH. by rewrite app_assoc_str.
    + rewrite fmap_cons, join_empty_cons.
      intros [[_ ?]%app_eq_nil_str _]%app_eq_nil_str. done.
Qed.

(** The string after [afterany:] is the handles joined by colons. *)
Lemma dependency_str_join (dependencies : list pyval) :
  dependency_str float_repr dependencies = Str.join ":" (format float_repr <$> dependencies).
Proof.
  unfold dependency_str. rewrite <- drop_last_join. f_equal. f_equal.
  induction dependencies as [|d l IH]; [done|]. simpl. by rewrite IH.
Qed.

(** An element of the command that asks the scheduler to wait for jobs. *)
Definition is_dependency_arg (s : string) : bool := Str.startswith "--dependency" s.

(** The clause the submitter writes for the handles [hs]. *)
Definition afterany_clause (hs : list Z) : string :=
  "--dependency=afterany:" +:+ Str.join ":" (pretty <$> hs).

Lemma filter_app_bool {A} (f : A → bool) (l1 l2 : list A) :
  List.filter f (l1 ++ l2) = List.filter f l1 ++ List.filter f l2.
Proof. apply List.filter_app. Qed.

Lemma slurm_cmd_dependency_args python_file job_name outfile time_limit arg_list
    (hs : list Z) exclusive :
  is_dependency_arg python_file = false →
  is_dependency_arg outfile = false →
  Forall (λ arg, is_dependency_arg (format float_repr arg) = false) arg_list →
  List.filter is_dependency_arg
    (slurm_cmd float_repr python_file job_name outfile time_limit arg_list
       (PyInt <$> hs) exclusive) =
  match hs with [] => [] | _ => [afterany_clause hs] end.
Proof.
  intros Hpy Hout Hargs. unfold slurm_cmd, cmd_1, cmd_2, cmd_3.
  rewrite !filter_app_bool.
  assert (List.filter is_dependency_arg (map (format float_repr) arg_list) = []) as ->.
  { induction Hargs as [|a l Ha _ IH]; [done|]. simpl. by rewrite Ha. }
  assert (List.filter is_dependency_arg (mem_args exclusive) = []) as ->.
  { by destruct exclusive. }
  assert (List.filter is_dependency_arg (dependency_args float_repr (PyInt <$> hs)) =
          match hs with [] => [] | _ => [afterany_clause hs] end) as ->.
  { unfold dependency_args. destruct hs as [|h hs]; [done|].
    rewrite dependency_str_join, <- list_fmap_compose. done. }
  destruct exclusive; simpl; rewrite Hpy, Hout; simpl; by rewrite ?app_nil_r.
Qed.

Lemma forallb_is_int (l : list pyval) :
  forallb is_int l = true → ∃ hs : list Z, l = PyInt <$> hs.
Proof.
  induction l as [|v l IH]; [by exists []|]. simpl.
  intros [Hv [hs ->]%IH]%andb_true_iff. destruct v; try done.
  by exists (z :: hs).
Qed.

(** C4.  When a submission hands a command to the scheduler, the
    dependency list is a list of integer handles [hs] ([None] counting as the
    empty list), the command is the only one handed over, and — the python
    file, the output path and the worker's arguments not being spelled like
    a dependency clause themselves — its dependency clauses are: none when
    [hs] is empty, and otherwise the single clause
    [--dependency=afterany:h1:...:hk]. *)
Theorem run_python_slurm_job_dependency_clause python_file job_name outfile time_limit
    arg_list dependencies exclusive w :
  let w' := (run_python_slurm_job float_repr env python_file job_name outfile time_limit
               arg_list dependencies exclusive w).2 in
  is_dependency_arg python_file = false →
  is_dependency_arg outfile = false →
  Forall (λ arg, is_dependency_arg (format float_repr arg) = false) arg_list →
  submitted w' ≠ submitted w →
  ∃ (hs : list Z) (cmd : list string),
    default [] dependencies = PyInt <$> hs ∧
    submitted w' = submitted w ++ [cmd] ∧
    List.filter is_dependency_arg cmd =
      match hs with
      | [] => []
      | _ => ["--dependency=afterany:" +:+ Str.join ":" (pretty <$> hs)]
      end.
Proof.
  intros w' Hpy Hout Hargs Hsub. subst w'.
  rewrite run_python_slurm_job_unfold in Hsub |- *.
  destruct (submit_checks _ _ _ _ _) eqn:Hchk; [|done].
  unfold submit_checks in Hchk. apply andb_true_iff in Hchk as [_ Hint].
  apply forallb_is_int in Hint as [hs Hhs].
  eexists hs, _. split_and!; [done | done |].
  rewrite Hhs. by apply slurm_cmd_dependency_args.
Qed.

End Submitter.

(** ** Facts about strings *)

Lemma startswith_nil_r (t : string) : t ≠ "" → Str.startswith t "" = false.
Proof. by destruct t. Qed.

Lemma contains_nil_r (t : string) : t ≠ "" → Str.contains t "" = false.
Proof. destruct t; [done|]. done. Qed.

Lemma contains_cons (t : string) c (s : string) :
  Str.contains t (String c s) = Str.startswith t (String c s) || Str.contains t s.
Proof. done. Qed.

(** [t] ends with a character that [p] rejects. *)
Fixpoint ends_outside (p : ascii → bool) (t : string) : bool :=
  match t with
  | EmptyString => false
  | String c t' =>
      match t' with
      | EmptyString => negb (p c)
      | String _ _ => ends_outside p t'
      end
  end.

Lemma ends_outside_nonempty p t : ends_outside p t = true → t ≠ "".
Proof. by destruct t. Qed.

Lemma startswith_all_chars p (t s : string) :
  ends_outside p t = true → Str.all_chars p s = true → Str.startswith t s = false.
Proof.
  revert s. induction t as [|a t IH]; [done|]. intros [|c s] Ht Hs; [done|].
  simpl in *. apply andb_true_iff in Hs as [Hc Hs].
  destruct (Ascii.eqb_spec a c) as [<-|]; [|done].
  destruct t as [|b t]; [by rewrite Hc in Ht|]. by apply IH.
Qed.

Lemma rstrip_by_nil_all p (s : string) :
  Str.rstrip_by p s = "" → Str.all_chars p s = true.
Proof.
  induction s as [|c s IH]; [done|]. simpl.
  destruct (decide (Str.rstrip_by p s = "")) as [Hr|Hr].
  - rewrite bool_decide_eq_true_2 by done. simpl. destruct (p c); [auto|done].
  - rewrite bool_decide_eq_false_2 by done. done.
Qed.

Lemma rstrip_by_cons p c (s : string) :
  Str.rstrip_by p (String c s) = "" ∧ Str.all_chars p (String c s) = true ∨
  Str.rstrip_by p (String c s) = String c (Str.rstrip_by p s).
Proof.
  simpl. destruct (decide (Str.rstrip_by p s = "")) as [Hr|Hr].
  - rewrite bool_decide_eq_true_2 by done. simpl. destruct (p c) eqn:Hc; [|by right].
    left. split; [done|]. by rewrite rstrip_by_nil_all.
  - rewrite bool_decide_eq_false_2 by done. by right.
Qed.

Lemma startswith_rstrip_by p (t s : string) :
  ends_outside p t = true →
  Str.startswith t (Str.rstrip_by p s) = Str.startswith t s.
Proof.
  revert t. induction s as [|c s IH]; [done|]. intros t Ht.
  destruct (rstrip_by_cons p c s) as [[-> Hall] | ->].
  - rewrite (startswith_all_chars p t (String c s)) by done.
    apply startswith_nil_r. by eapply ends_outside_nonempty.
  - destruct t as [|a t]; [done|]. simpl. destruct (Ascii.eqb a c); [|done].
    destruct t as [|b t]; [done|]. by apply IH.
Qed.

(** Stripping trailing characters neither adds nor removes an occurrence of
    a string that ends with a character that is not stripped. *)
Lemma contains_rstrip_by p (t s : string) :
  ends_outside p t = true →
  Str.contains t (Str.rstrip_by p s) = Str.contains t s.
Proof.
  intros Ht. induction s as [|c s IH]; [done|].
  rewrite (contains_cons t c s), <- IH.
  destruct (rstrip_by_cons p c s) as [[Hnil Hall] | Hcons].
  - rewrite Hnil. simpl in Hnil.
    assert (Str.rstrip_by p s = "") as ->.
    { destruct (decide (Str.rstrip_by p s = "")); [done|].
      by rewrite bool_decide_eq_false_2 in Hnil. }
    rewrite (startswith_all_chars p t (String c s)) by done. by rewrite orb_false_l.
  - rewrite Hcons, contains_cons. f_equal.
    rewrite <- Hcons. by apply startswith_rstrip_by.
Qed.

(** *** The text of a bytes literal *)

#[local] Arguments Ascii.eqb : simpl never.

(** [c] stands for itself in a literal quoted by [q]. *)
Definition written_as_is (q c : ascii) : bool :=
  bool_decide (Py.repr_byte q c = String c "").

Definition is_quote (q : ascii) : Prop := q = Py.squote ∨ q = Py.dquote.

Lemma repr_byte_cases (q c : ascii) :
  is_quote q →
  Py.repr_byte q c = String c "" ∨
  (∃ e, Py.repr_byte q c = String Py.backslash e) ∧
  Py.has_char "S" (Py.repr_byte q c) = false.
Proof.
  intros [-> | ->]; destruct c as [[] [] [] [] [] [] [] []]; vm_compute;
    first [by left | right; split; [by eexists | done]].
Qed.

Lemma written_as_is_ne (q a : ascii) :
  written_as_is q a = true → a ≠ q ∧ a ≠ Py.backslash.
Proof.
  unfold written_as_is, Py.repr_byte. intros H%bool_decide_eq_true.
  destruct (Ascii.eqb_spec a q) as [Heq|]; [done|].
  destruct (Ascii.eqb_spec a Py.backslash) as [Heq|]; [done|]. done.
Qed.

Lemma startswith_repr_body (q : ascii) (t b rest : string) :
  is_quote q →
  Str.all_chars (written_as_is q) t = true →
  Str.startswith t (Py.repr_body q b +:+ String q rest) = Str.startswith t b.
Proof.
  intros Hq. revert b. induction t as [|a t IH]; [done|]. intros b Ht.
  simpl in Ht. apply andb_true_iff in Ht as [Ha Ht].
  destruct (written_as_is_ne _ _ Ha) as [Haq Hab].
  destruct b as [|c b]; simpl.
  - by destruct (Ascii.eqb_spec a q).
  - rewrite app_assoc_str.
    destruct (repr_byte_cases q c Hq) as [-> | [[e He] _]].
    + rewrite app_cons_str. simpl. destruct (Ascii.eqb a c); [by apply IH | done].
    + rewrite He, app_cons_str. simpl.
      destruct (Ascii.eqb_spec a Py.backslash) as [|_]; [done|].
      destruct (Ascii.eqb_spec a c) as [<-|]; [|done].
      apply bool_decide_eq_true in Ha. rewrite Ha in He. by injection He.
Qed.

Lemma contains_skip (a : ascii) (t e s : string) :
  Py.has_char a e = false →
  Str.contains (String a t) (e +:+ s) = Str.contains (String a t) s.
Proof.
  induction e as [|c e IH]; [done|]. simpl.
  intros [Hc He]%orb_false_iff. rewrite Ascii.eqb_sym, Hc. simpl. by apply IH.
Qed.

Lemma contains_repr_body (q : ascii) (t b : string) :
  is_quote q →
  Str.all_chars (written_as_is q) (String "S" t) = true →
  Str.contains (String "S" t) (Py.repr_body q b +:+ String q "") =
  Str.contains (String "S" t) b.
Proof.
  intros Hq Ht. induction b as [|c b IH].
  - destruct Hq as [-> | ->]; done.
  - change (Py.repr_body q (String c b)) with (Py.repr_byte q c +:+ Py.repr_body q b).
    rewrite app_assoc_str, (contains_cons _ c b).
    destruct (repr_byte_cases q c Hq) as [Hc | [_ Hc]].
    + rewrite Hc, app_cons_str. change ("" +:+ ?x) with x.
      rewrite contains_cons, IH. f_equal.
      rewrite <- (startswith_repr_body q (String "S" t) (String c b) "" Hq Ht).
      change (Py.repr_body q (String c b)) with (Py.repr_byte q c +:+ Py.repr_body q b).
      by rewrite Hc, app_assoc_str.
    + rewrite contains_skip, IH by done.
      assert (Ascii.eqb "S" c = false) as Hne.
      { destruct (Ascii.eqb_spec "S" c) as [<-|]; [|done].
        destruct Hq as [-> | ->]; done. }
      simpl. by rewrite Hne.
Qed.

Definition token : string := "Submitted batch job".

(** The literal of a bytes object holds the token exactly when the bytes
    do. *)
Lemma contains_token_str_of_bytes (b : string) :
  Str.contains token (Py.str_of_bytes b) = Str.contains token b.
Proof.
  unfold Py.str_of_bytes.
  set (q := if Py.has_char Py.squote b && negb (Py.has_char Py.dquote b)
            then Py.dquote else Py.squote).
  assert (is_quote q) as Hq.
  { unfold q, is_quote. destruct (_ && _); auto. }
  unfold token.
  rewrite (contains_cons _ "b"), (contains_cons _ q), (contains_repr_body q _ b Hq).
  - assert (Str.startswith "Submitted batch job"
              (String q (Py.repr_body q b +:+ String q "")) = false) as ->.
    { destruct Hq as [-> | ->]; done. }
    done.
  - destruct Hq as [-> | ->]; by vm_compute.
Qed.

(** The line the program looks at holds the token exactly when the first
    line of the output does. *)
Lemma contains_token_job_line (out : string) :
  Str.contains token (job_line_of out) =
  match first_line out with
  | Some line => Str.contains token line
  | None => false
  end.
Proof.
  unfold job_line_of. destruct (first_line out) as [line|]; [|done].
  rewrite contains_token_str_of_bytes. by apply contains_rstrip_by.
Qed.

(** *** Splitting at one character *)

Lemma split_go_nonempty sep skip cur s : Str.split_go sep skip cur s ≠ [].
Proof.
  revert skip cur. induction s as [|c s IH]; intros skip cur; simpl; [done|].
  destruct skip; [|done]. by destruct (Str.startswith sep (String c s)).
Qed.

Lemma last_cons_nonempty {A} (x : A) (l : list A) : l ≠ [] → last (x :: l) = last l.
Proof. by destruct l. Qed.

Lemma split_go_char_step (c x : ascii) (cur s : string) :
  Str.split_go (String c "") 0 cur (String x s) =
  if Ascii.eqb c x then cur :: Str.split_go (String c "") 0 "" s
  else Str.split_go (String c "") 0 (cur +:+ String x "") s.
Proof. simpl. by destruct (Ascii.eqb c x). Qed.

(** The last piece is the last piece of what follows any separator. *)
Lemma last_split_go_char (c : ascii) (a b cur : string) :
  last (Str.split_go (String c "") 0 cur (a +:+ String c b)) =
  last (Str.split_go (String c "") 0 "" b).
Proof.
  revert cur. induction a as [|x a IH]; intros cur.
  - change ("" +:+ ?s) with s. rewrite split_go_char_step, Ascii.eqb_refl.
    apply last_cons_nonempty, split_go_nonempty.
  - rewrite app_cons_str, split_go_char_step. destruct (Ascii.eqb c x); [|done].
    rewrite last_cons_nonempty by apply split_go_nonempty. apply IH.
Qed.

Lemma split_go_char_none (c : ascii) (cur s : string) :
  Py.has_char c s = false → Str.split_go (String c "") 0 cur s = [cur +:+ s].
Proof.
  revert cur. induction s as [|x s IH]; intros cur.
  - by rewrite app_nil_r_str.
  - simpl. intros [Hx Hs]%orb_false_iff. rewrite Ascii.eqb_sym, Hx.
    rewrite IH by done. by rewrite app_assoc_str.
Qed.

Lemma head_split_go_char (c : ascii) (a b cur : string) :
  Py.has_char c a = false →
  head (Str.split_go (String c "") 0 cur (a +:+ String c b)) = Some (cur +:+ a).
Proof.
  revert cur. induction a as [|x a IH]; intros cur.
  - intros _. change ("" +:+ ?s) with s.
    by rewrite split_go_char_step, Ascii.eqb_refl, app_nil_r_str.
  - intros H. simpl in H. apply orb_false_iff in H as [Hx Ha].
    rewrite app_cons_str, split_go_char_step, Ascii.eqb_sym, Hx, IH by done.
    by rewrite app_assoc_str.
Qed.

Lemma has_char_app (c : ascii) (s t : string) :
  Py.has_char c (s +:+ t) = Py.has_char c s || Py.has_char c t.
Proof.
  induction s as [|x s IH]; [done|]. rewrite app_cons_str. simpl.
  by rewrite IH, orb_assoc.
Qed.

Lemma all_chars_app p (s t : string) :
  Str.all_chars p (s +:+ t) = Str.all_chars p s && Str.all_chars p t.
Proof.
  induction s as [|x s IH]; [done|]. rewrite app_cons_str. simpl.
  by rewrite IH, andb_assoc.
Qed.

(** A line of printable characters other than the single quote and the
    backslash is written as it is, between single quotes. *)
Lemma has_char_written_as_is (q : ascii) (s : string) :
  Str.all_chars (written_as_is q) s = true → Py.has_char q s = false.
Proof.
  induction s as [|x s IH]; [done|]. simpl. intros [Hx Hs]%andb_true_iff.
  destruct (written_as_is_ne _ _ Hx) as [Hne _].
  destruct (Ascii.eqb_spec x q); [done|]. by apply IH.
Qed.

Lemma repr_body_written_as_is (q : ascii) (s : string) :
  Str.all_chars (written_as_is q) s = true → Py.repr_body q s = s.
Proof.
  induction s as [|x s IH]; [done|]. simpl. intros [Hx Hs]%andb_true_iff.
  apply bool_decide_eq_true in Hx. by rewrite Hx, IH.
Qed.

Lemma str_of_bytes_printable (line : string) :
  Str.all_chars (written_as_is Py.squote) line = true →
  Py.str_of_bytes line = String "b" (String Py.squote (line +:+ String Py.squote "")).
Proof.
  intros H. unfold Py.str_of_bytes.
  by rewrite has_char_written_as_is, repr_body_written_as_is.
Qed.

(** The field the handle is read from, for a printable line: what follows
    its last space. *)
Lemma job_id_field_printable (pre field : string) :
  Str.all_chars (written_as_is Py.squote) (pre +:+ " " +:+ field) = true →
  Py.has_char " " field = false →
  job_id_field (Py.str_of_bytes (pre +:+ " " +:+ field)) = field.
Proof.
  intros Hline Hfield. rewrite str_of_bytes_printable by done.
  unfold job_id_field, Str.split.
  change (String "b" (String Py.squote ((pre +:+ " " +:+ field) +:+ String Py.squote "")))
    with (String "b" (String Py.squote "") +:+ ((pre +:+ " " +:+ field) +:+ String Py.squote "")).
  rewrite !app_assoc_str, <- (app_assoc_str _ pre).
  change (" " +:+ ?s) with (String " " s).
  rewrite last_split_go_char,
    (split_go_char_none " " "" (field +:+ String Py.squote "")).
  - simpl. change ("" +:+ ?s) with s.
    rewrite head_split_go_char; [done|].
    apply has_char_written_as_is.
    rewrite all_chars_app in Hline. apply andb_true_iff in Hline as [_ Hline].
    change (" " +:+ field) with (String " " field) in Hline. simpl in Hline.
    done.
  - rewrite has_char_app, Hfield. done.
Qed.

(** *** Decimal numerals *)

(** The number a string of decimal digits writes, after the digits [acc]. *)
Fixpoint decimal (acc : Z) (d : string) : Z :=
  match d with
  | EmptyString => acc
  | String c d' => decimal (10 * acc + Str.digit_value c) d'
  end.

Lemma decimal_snoc acc (d : string) c :
  decimal acc (d +:+ String c "") = 10 * decimal acc d + Str.digit_value c.
Proof. revert acc. induction d as [|x d IH]; intros acc; [done|]. apply IH. Qed.

Lemma digits_go_digits (d : string) acc after_digit :
  Str.all_chars Str.is_digit d = true →
  d ≠ "" ∨ after_digit = true →
  Py.digits_go acc after_digit d = Some (decimal acc d).
Proof.
  revert acc after_digit. induction d as [|c d IH]; intros acc b Hd Hne.
  - destruct Hne as [?| ->]; done.
  - simpl in *. apply andb_true_iff in Hd as [Hc Hd]. rewrite Hc.
    apply IH; auto.
Qed.

Lemma digit_not_sign_or_space (c : ascii) :
  Str.is_digit c = true →
  Py.int_space c = false ∧ c ≠ "-"%char ∧ c ≠ "+"%char.
Proof. destruct c as [[] [] [] [] [] [] [] []]; vm_compute; try done. Qed.

Lemma rstrip_by_outside p (s : string) :
  Str.all_chars (λ c, negb (p c)) s = true → Str.rstrip_by p s = s.
Proof.
  induction s as [|c s IH]; [done|]. simpl. intros [Hc Hs]%andb_true_iff.
  rewrite IH by done. apply negb_true_iff in Hc. rewrite Hc, andb_false_r. done.
Qed.

(** [int] reads a non-empty string of digits as the number it writes. *)
Lemma int_of_str_digits (d : string) :
  Str.all_chars Str.is_digit d = true → d ≠ "" →
  Py.int_of_str d = Some (decimal 0 d).
Proof.
  intros Hd Hne. unfold Py.int_of_str, Str.strip_by.
  assert (Str.all_chars (λ c, negb (Py.int_space c)) d = true) as Hns.
  { clear Hne. induction d as [|c d IH]; [done|]. simpl in *.
    apply andb_true_iff in Hd as [Hc Hd].
    destruct (digit_not_sign_or_space c Hc) as (-> & _). by rewrite IH. }
  destruct d as [|c d]; [done|].
  assert (Str.lstrip_by Py.int_space (String c d) = String c d) as ->.
  { simpl. simpl in Hns. apply andb_true_iff in Hns as [Hc _].
    apply negb_true_iff in Hc. by rewrite Hc. }
  rewrite rstrip_by_outside by done.
  rewrite <- (digits_go_digits (String c d) 0 false) by auto.
  simpl in Hd. apply andb_true_iff in Hd as [Hc _].
  destruct (digit_not_sign_or_space c Hc) as (_ & Hm & Hp).
  destruct c as [[] [] [] [] [] [] [] []]; done.
Qed.

Lemma pretty_N_char_digit (y : N) :
  (y < 10)%N →
  Str.is_digit (pretty_N_char y) = true ∧ Str.digit_value (pretty_N_char y) = Z.of_N y.
Proof.
  intros Hy.
  assert (y = 0 ∨ y = 1 ∨ y = 2 ∨ y = 3 ∨ y = 4 ∨ y = 5 ∨ y = 6 ∨ y = 7 ∨ y = 8 ∨ y = 9)%N
    as Hcases by lia.
  destruct_or!; subst y; done.
Qed.

Lemma length_snoc_str (d : string) c :
  String.length (d +:+ String c "") = S (String.length d).
Proof. induction d as [|x d IH]; [done|]. rewrite app_cons_str. simpl. by rewrite IH. Qed.

Lemma pretty_N_go_digits (x : N) (s : string) :
  (0 < x)%N →
  ∃ d, pretty_N_go x s = d +:+ s ∧ d ≠ "" ∧ Str.all_chars Str.is_digit d = true ∧
       ∀ acc, decimal acc d = 10 ^ Z.of_nat (String.length d) * acc + Z.of_N x.
Proof.
  revert s. induction (N.lt_wf_0 x) as [x _ IH]. intros s Hx.
  rewrite pretty_N_go_step by done.
  destruct (pretty_N_char_digit (x `mod` 10)%N) as [Hdig Hval].
  { by apply N.mod_lt. }
  pose proof (N.div_mod x 10 ltac:(done)) as Hdm.
  destruct (decide (x `div` 10 = 0)%N) as [Hz|Hz].
  - rewrite Hz, pretty_N_go_0. exists (String (pretty_N_char (x `mod` 10)%N) "").
    split_and!; [done | done | by simpl; rewrite Hdig |].
    intros acc. change (decimal acc (String (pretty_N_char (x `mod` 10)%N) ""))
      with (10 * acc + Str.digit_value (pretty_N_char (x `mod` 10)%N)).
    rewrite Hval. change (10 ^ Z.of_nat (String.length (String (pretty_N_char (x `mod` 10)%N) "")))
      with 10. rewrite Hz in Hdm. clear Hdig Hval Hz. set (r := (x `mod` 10)%N) in *. clearbody r. lia.
  - destruct (IH (x `div` 10)%N) with (s := String (pretty_N_char (x `mod` 10)%N) s)
      as (d & Hd & Hne & Hall & Hdec).
    { apply N.div_lt; lia. }
    { by apply N.neq_0_lt_0. }
    exists (d +:+ String (pretty_N_char (x `mod` 10)%N) "").
    split_and!.
    + by rewrite Hd, app_assoc_str.
    + intros [? _]%app_eq_nil_str. done.
    + rewrite all_chars_app, Hall. simpl. by rewrite Hdig.
    + intros acc. rewrite decimal_snoc, Hdec, Hval, length_snoc_str.
      rewrite Nat2Z.inj_succ, Z.pow_succ_r by lia.
      clear Hdig Hval Hz Hd Hdec IH. set (r := (x `mod` 10)%N) in *.
      set (q := (x `div` 10)%N) in *. clearbody q r. lia.
Qed.

(** What [str] writes for a natural number is a string of digits that [int]
    reads back. *)
Lemma pretty_N_digits (n : N) :
  pretty n ≠ "" ∧ Str.all_chars Str.is_digit (pretty n) = true ∧
  Py.int_of_str (pretty n) = Some (Z.of_N n).
Proof.
  unfold pretty, pretty_N. destruct (decide (n = 0)%N) as [->|Hn]; [done|].
  destruct (pretty_N_go_digits n "") as (d & Hd & Hne & Hall & Hdec); [lia|].
  rewrite app_nil_r_str in Hd. rewrite Hd. split_and!; [done..|].
  rewrite int_of_str_digits, Hdec by done. f_equal. lia.
Qed.

Lemma first_line_app (a rest : string) :
  Py.has_char "010" a = false →
  first_line (a +:+ String "010" rest) = Some (a +:+ String "010" "").
Proof.
  induction a as [|c a IH]; [done|]. intros H. simpl in H.
  apply orb_false_iff in H as [Hc Ha]. rewrite !app_cons_str. simpl.
  rewrite Hc, IH by done. done.
Qed.

Lemma rstrip_by_all p (s : string) :
  Str.all_chars p s = true → Str.rstrip_by p s = "".
Proof.
  induction s as [|c s IH]; [done|]. simpl. intros [Hc Hs]%andb_true_iff.
  by rewrite IH, Hc.
Qed.

Lemma rstrip_by_app p (a ws : string) :
  ends_outside p a = true → Str.all_chars p ws = true →
  Str.rstrip_by p (a +:+ ws) = a.
Proof.
  intros Ha Hws. induction a as [|c a IH]; [done|].
  rewrite app_cons_str. simpl. destruct a as [|d a].
  - change ("" +:+ ws) with ws. rewrite rstrip_by_all by done. simpl in Ha.
    apply negb_true_iff in Ha. by rewrite Ha.
  - rewrite IH by done. done.
Qed.

Lemma ends_outside_app p (a b : string) :
  ends_outside p b = true → ends_outside p (a +:+ b) = true.
Proof.
  intros Hb. induction a as [|c a IH]; [done|]. rewrite app_cons_str. simpl.
  destruct (a +:+ b) eqn:E; [|done].
  apply app_eq_nil_str in E as [_ ->]. done.
Qed.

Lemma digits_printable (d : string) :
  Str.all_chars Str.is_digit d = true →
  Str.all_chars (written_as_is Py.squote) d = true ∧ Py.has_char " " d = false ∧
  Py.has_char "010" d = false ∧ (d ≠ "" → ends_outside Str.is_space d = true).
Proof.
  assert (∀ c, Str.is_digit c = true →
            written_as_is Py.squote c = true ∧ Ascii.eqb c " " = false ∧
            Ascii.eqb c "010" = false ∧ Str.is_space c = false) as Hchar.
  { intros c. destruct c as [[] [] [] [] [] [] [] []]; vm_compute; done. }
  induction d as [|c d IH]; [done|]. simpl. intros [Hc Hd]%andb_true_iff.
  destruct (Hchar c Hc) as (-> & -> & -> & Hs). destruct (IH Hd) as (-> & -> & -> & He).
  split_and!; [done..|]. intros _. destruct d; [by rewrite Hs | by apply He].
Qed.

(** ** The scheduler's acknowledgment *)

(** What the submitter makes of the scheduler's output. *)
Lemma read_acknowledgment (ack : string) :
  let res :=
    if Str.contains "Submitted batch job" (job_line_of ack) then
      match Py.int_of_str (job_id_field (job_line_of ack)) with
      | Some job_id => Ok job_id
      | None => Raise ValueError
      end
    else Raise AssertionError in
  ((∀ line, first_line ack = Some line → Str.contains "Submitted batch job" line = false) →
   res = Raise AssertionError) ∧
  (∀ line, first_line ack = Some line → Str.contains "Submitted batch job" line = true →
   res = match Py.int_of_str
                 (job_id_field (Py.str_of_bytes (Str.rstrip_by Str.is_space line))) with
         | Some job_id => Ok job_id
         | None => Raise ValueError
         end) ∧
  (∀ line pre field,
     first_line ack = Some line → Str.contains "Submitted batch job" line = true →
     Str.rstrip_by Str.is_space line = pre +:+ " " +:+ field →
     Str.all_chars (written_as_is Py.squote) line = true →
     Py.has_char " " field = false →
     res = match Py.int_of_str field with
           | Some job_id => Ok job_id
           | None => Raise ValueError
           end) ∧
  (∀ (n : N) rest,
     ack = "Submitted batch job " +:+ pretty n +:+ String "010" rest →
     res = Ok (Z.of_N n)).
Proof.
  intros res. subst res.
  change (Str.contains "Submitted batch job") with (Str.contains token).
  rewrite (contains_token_job_line ack). unfold job_line_of.
  split_and!.
  - intros Hno. destruct (first_line ack) as [line|]; [|done].
    by rewrite (Hno line eq_refl).
  - intros line Hline Htok. rewrite Hline. by rewrite Htok.
  - intros line pre field Hline Htok Hstrip Hprint Hfield. rewrite Hline.
    rewrite Htok, Hstrip, job_id_field_printable; [done| |done].
    rewrite <- Hstrip. clear -Hprint.
    induction line as [|c line IH]; [done|]. simpl in Hprint.
    apply andb_true_iff in Hprint as [Hc Hl].
    destruct (rstrip_by_cons Str.is_space c line) as [[-> _] | ->]; [done|].
    simpl. by rewrite Hc, IH.
  - intros n rest Hack. destruct (pretty_N_digits n) as (Hne & Hdig & Hint).
    destruct (digits_printable _ Hdig) as (Hpr & Hsp & Hnl & Hend).
    assert (first_line ack = Some (("Submitted batch job " +:+ pretty n) +:+ String "010" ""))
      as Hline.
    { rewrite Hack, <- app_assoc_str. apply first_line_app.
      rewrite has_char_app, Hnl. done. }
    rewrite Hline.
    assert (Str.contains token (("Submitted batch job " +:+ pretty n) +:+ String "010" "") = true)
      as ->.
    { done. }
    rewrite rstrip_by_app; [| by apply ends_outside_app, Hend | done].
    change ("Submitted batch job " +:+ pretty n)
      with ("Submitted batch job" +:+ " " +:+ pretty n).
    rewrite job_id_field_printable, Hint; [done| |done].
    rewrite all_chars_app. change (" " +:+ pretty n) with (String " " (pretty n)).
    simpl. by rewrite Hpr.
Qed.

Section Acknowledgment.

Variable float_repr : float → string.
Variable env : environment.

(** C8.  When a submission has handed its command to the scheduler: if the
    output has no first line, or the first line does not hold the token
    [Submitted batch job], the submission fails with an assertion error;
    otherwise its result is [int] of the field the program cuts from the
    line — for a line of printable characters (other than the single quote
    and the backslash) that is what follows the last space of the line
    without its trailing whitespace — so the handle is that field read as a
    decimal integer, and a field that is none is fatal too.  For the
    scheduler's usual line, the handle is the number printed after the
    token. *)
Theorem run_python_slurm_job_acknowledgment python_file job_name outfile time_limit
    arg_list dependencies exclusive w :
  let r := run_python_slurm_job float_repr env python_file job_name outfile time_limit
             arg_list dependencies exclusive w in
  let ack := popen_stdout env w
               (slurm_cmd float_repr python_file job_name outfile time_limit arg_list
                  (default [] dependencies) exclusive) in
  submitted r.2 ≠ submitted w →
  ((∀ line, first_line ack = Some line → Str.contains "Submitted batch job" line = false) →
   r.1 = Raise AssertionError) ∧
  (∀ line, first_line ack = Some line → Str.contains "Submitted batch job" line = true →
   r.1 = match Py.int_of_str
                 (job_id_field (Py.str_of_bytes (Str.rstrip_by Str.is_space line))) with
         | Some job_id => Ok job_id
         | None => Raise ValueError
         end) ∧
  (∀ line pre field,
     first_line ack = Some line → Str.contains "Submitted batch job" line = true →
     Str.rstrip_by Str.is_space line = pre +:+ " " +:+ field →
     Str.all_chars (written_as_is Py.squote) line = true →
     Py.has_char " " field = false →
     r.1 = match Py.int_of_str field with
           | Some job_id => Ok job_id
           | None => Raise ValueError
           end) ∧
  (∀ (n : N) rest,
     ack = "Submitted batch job " +:+ pretty n +:+ String "010" rest →
     r.1 = Ok (Z.of_N n)).
Proof.
  intros r ack Hsub. subst r. rewrite run_python_slurm_job_unfold in Hsub |- *.
  destruct (submit_checks _ _ _ _ _); [|done]. apply read_acknowledgment.
Qed.

End Acknowledgment.

(** ** The completion barrier *)

Section Barrier.

Variable float_repr : float → string.
Variable env : environment.

(** The world after [k] more sleeps of 5 seconds. *)
Definition slept (k : nat) (w : world) : world :=
  Nat.iter k (λ w, (sleep env 5 w).2) w.

Lemma slept_S k w : slept (S k) w = slept k ((sleep env 5 w).2).
Proof. unfold slept. by rewrite Nat.iter_succ_r. Qed.

Lemma slept_log k w :
  submitted (slept k w) = submitted w ∧ sleeps (slept k w) = sleeps w ++ replicate k 5.
Proof.
  revert w. induction k as [|k IH]; intros w.
  - by rewrite app_nil_r.
  - rewrite slept_S. destruct (IH ((sleep env 5 w).2)) as [-> ->]. simpl.
    by rewrite <- app_assoc.
Qed.

Lemma poll_unfold fuel marker w :
  poll env fuel marker w =
  if FS.isfile (fs w) marker then (Ok (), w)
  else match fuel with
       | O => (Diverge, w)
       | S fuel' => poll env fuel' marker (sleep env 5 w).2
       end.
Proof.
  destruct fuel; simpl; unfold mbind, M_bind, bind, get_fs;
    by destruct (FS.isfile (fs w) marker).
Qed.

(** The loop returns at the first poll that finds the marker. *)
Lemma poll_returns fuel marker w k :
  (k ≤ fuel)%nat →
  FS.isfile (fs (slept k w)) marker = true →
  (∀ j, (j < k)%nat → FS.isfile (fs (slept j w)) marker = false) →
  poll env fuel marker w = (Ok (), slept k w).
Proof.
  revert w k. induction fuel as [|fuel IH]; intros w k Hk Hfound Hbefore;
    rewrite poll_unfold.
  - assert (k = 0%nat) as -> by lia. simpl in Hfound. by rewrite Hfound.
  - destruct k as [|k].
    + simpl in Hfound. by rewrite Hfound.
    + pose proof (Hbefore 0%nat ltac:(lia)) as H0. simpl in H0. rewrite H0.
      rewrite slept_S in Hfound |- *. apply IH; [lia|done|].
      intros j Hj. specialize (Hbefore (S j) ltac:(lia)). by rewrite slept_S in Hbefore.
Qed.

(** It is still waiting when no poll so far has found the marker. *)
Lemma poll_diverges fuel marker w :
  (∀ j, (j ≤ fuel)%nat → FS.isfile (fs (slept j w)) marker = false) →
  poll env fuel marker w = (Diverge, slept fuel w).
Proof.
  revert w. induction fuel as [|fuel IH]; intros w Hnone; rewrite poll_unfold;
    pose proof (Hnone 0%nat ltac:(lia)) as H0; simpl in H0; rewrite H0; [done|].
  rewrite slept_S. apply IH.
  intros j Hj. specialize (Hnone (S j) ltac:(lia)). by rewrite slept_S in Hnone.
Qed.

(** Whatever the loop does, it has slept some number of times 5 seconds; when
    it returns the marker is there, and it was not at any earlier poll. *)
Lemma poll_inv fuel marker w :
  ∃ k, (k ≤ fuel)%nat ∧
    (∀ j, (j < k)%nat → FS.isfile (fs (slept j w)) marker = false) ∧
    (poll env fuel marker w = (Ok (), slept k w) ∧
       FS.isfile (fs (slept k w)) marker = true ∨
     poll env fuel marker w = (Diverge, slept k w) ∧ k = fuel ∧
       FS.isfile (fs (slept k w)) marker = false).
Proof.
  revert w. induction fuel as [|fuel IH]; intros w; rewrite poll_unfold;
    destruct (FS.isfile (fs w) marker) eqn:Hw.
  - exists 0%nat. split_and!; [lia | intros; lia | by left].
  - exists 0%nat. split_and!; [lia | intros; lia | by right].
  - exists 0%nat. split_and!; [lia | intros; lia | by left].
  - destruct (IH (sleep env 5 w).2) as (k & Hk & Hbefore & Hres).
    exists (S k). rewrite slept_S. split_and!; [lia | | ].
    + intros [|j] Hj; [done|]. rewrite slept_S. apply Hbefore. lia.
    + destruct Hres as [[-> ?] | (-> & -> & ?)]; [by left | by right].
Qed.

(** The command that submits the sentinel job. *)
Definition sentinel_cmd (slurm_job_ids : list pyval) (outfiles_dir : string) : list string :=
  let safety_file_no_ext := Path.join outfiles_dir "safety_check" in
  slurm_cmd float_repr "Slurm/safety_check.py" "cleaner" (safety_file_no_ext +:+ ".out")
    (PyInt 10) [PyStr (safety_file_no_ext +:+ ".txt")] slurm_job_ids false.

Definition marker_file (outfiles_dir : string) : string :=
  Path.join outfiles_dir "safety_check" +:+ ".txt".

Definition submit_sentinel (slurm_job_ids : list pyval) (outfiles_dir : string) : M Z :=
  let safety_file_no_ext := Path.join outfiles_dir "safety_check" in
  run_python_slurm_job float_repr env "Slurm/safety_check.py" "cleaner"
    (safety_file_no_ext +:+ ".out") (PyInt 10)
    [PyStr (safety_file_no_ext +:+ ".txt")] (Some slurm_job_ids) false.

Lemma wait_for_jobs_to_finish_unfold fuel slurm_job_ids outfiles_dir w :
  wait_for_jobs_to_finish float_repr env fuel slurm_job_ids outfiles_dir w =
  match submit_sentinel slurm_job_ids outfiles_dir w with
  | (Ok _, w1) => poll env fuel (marker_file outfiles_dir) (slept 1 w1)
  | (Raise e, w1) => (Raise e, w1)
  | (Diverge, w1) => (Diverge, w1)
  end.
Proof.
  unfold wait_for_jobs_to_finish, submit_sentinel, marker_file, mbind, M_bind, bind.
  by destruct (run_python_slurm_job _ _ _ _ _ _ _ _ _ w) as [[?|?|] ?].
Qed.

Lemma submit_sentinel_log slurm_job_ids outfiles_dir w :
  let r := submit_sentinel slurm_job_ids outfiles_dir w in
  (r = (Raise AssertionError, w)) ∨
  (r.2 = after_popen env w (sentinel_cmd slurm_job_ids outfiles_dir) ∧
   ∃ hs : list Z, slurm_job_ids = PyInt <$> hs).
Proof.
  unfold submit_sentinel. cbn zeta. rewrite run_python_slurm_job_unfold.
  destruct (submit_checks _ _ _ _ _) eqn:Hchk; [right|by left].
  split; [done|]. unfold submit_checks in Hchk.
  apply andb_true_iff in Hchk as [_ Hint]. by apply forallb_is_int.
Qed.

Lemma dependency_args_handles (hs : list Z) :
  dependency_args float_repr (PyInt <$> hs) =
  match hs with
  | [] => []
  | _ => ["--dependency=afterany:" +:+ Str.join ":" (pretty <$> hs)]
  end.
Proof.
  unfold dependency_args. destruct hs as [|h hs]; [done|].
  rewrite dependency_str_join, <- list_fmap_compose. done.
Qed.

Lemma wait_for_jobs_to_finish_spec fuel slurm_job_ids outfiles_dir w :
  let marker := marker_file outfiles_dir in
  let sentinel := sentinel_cmd slurm_job_ids outfiles_dir in
  let r := wait_for_jobs_to_finish float_repr env fuel slurm_job_ids outfiles_dir w in
  (submitted r.2 = submitted w ∨ submitted r.2 = submitted w ++ [sentinel]) ∧
  (r.1 = Ok () →
     submitted r.2 = submitted w ++ [sentinel] ∧
     (∃ hs : list Z, slurm_job_ids = PyInt <$> hs ∧
        dependency_args float_repr slurm_job_ids =
          match hs with
          | [] => []
          | _ => ["--dependency=afterany:" +:+ Str.join ":" (pretty <$> hs)]
          end) ∧
     FS.isfile (fs r.2) marker = true ∧
     ∃ k, (k ≤ fuel)%nat ∧
       r.2 = slept (S k) (after_popen env w sentinel) ∧
       sleeps r.2 = sleeps w ++ replicate (S k) 5 ∧
       ∀ j, (j < k)%nat →
         FS.isfile (fs (slept (S j) (after_popen env w sentinel))) marker = false) ∧
  (∀ job w1, submit_sentinel slurm_job_ids outfiles_dir w = (Ok job, w1) →
     (∀ k, (k ≤ fuel)%nat →
        FS.isfile (fs (slept (S k) w1)) marker = true →
        (∀ j, (j < k)%nat → FS.isfile (fs (slept (S j) w1)) marker = false) →
        r = (Ok (), slept (S k) w1)) ∧
     ((∀ j, (j ≤ fuel)%nat → FS.isfile (fs (slept (S j) w1)) marker = false) →
        r = (Diverge, slept (S fuel) w1))).
Proof.
  intros marker sentinel r.
  assert (∀ k w1, slept k (slept 1 w1) = slept (S k) w1) as Hslept.
  { intros k w1. by rewrite (slept_S k). }
  subst r marker sentinel. rewrite wait_for_jobs_to_finish_unfold.
  set (marker := marker_file outfiles_dir). set (sentinel := sentinel_cmd slurm_job_ids outfiles_dir).
  pose proof (submit_sentinel_log slurm_job_ids outfiles_dir w) as Hlog. cbn zeta in Hlog.
  destruct (submit_sentinel slurm_job_ids outfiles_dir w) as [[job|e|] w1] eqn:Hsub.
  - destruct Hlog as [[=] | [Hw1 [hs Hhs]]]. cbn [fst snd] in Hw1. fold sentinel in Hw1.
    destruct (poll_inv fuel marker (slept 1 w1)) as (k & Hk & Hbefore & Hres).
    split_and!.
    + right. destruct Hres as [[-> _] | (-> & _ & _)]; cbn [fst snd];
        rewrite Hslept; rewrite (proj1 (slept_log _ _)); by rewrite Hw1.
    + intros Hok. destruct Hres as [[Hp Hfound] | (Hp & _ & _)];
        rewrite Hp in Hok |- *; [|done]. cbn [fst snd]. rewrite Hslept in Hfound |- *.
      split_and!.
      * rewrite (proj1 (slept_log _ _)). by rewrite Hw1.
      * exists hs. split; [done|]. rewrite Hhs. apply dependency_args_handles.
      * done.
      * exists k. split_and!; [done | by rewrite Hw1 | |].
        -- rewrite (proj2 (slept_log _ _)). by rewrite Hw1.
        -- intros j Hj. rewrite <- Hw1, <- Hslept. by apply Hbefore.
    + intros job' w1' [= <- <-]. split.
      * intros k' Hk' Hfound' Hbefore'. rewrite <- (Hslept k' w1).
        apply poll_returns; [done| |].
        -- by rewrite Hslept.
        -- intros j Hj. rewrite Hslept. by apply Hbefore'.
      * intros Hnone. rewrite <- (Hslept fuel w1). apply poll_diverges.
        intros j Hj. rewrite Hslept. by apply Hnone.
  - split_and!; [|done|done]. destruct Hlog as [[= _ <-] | [Hw1 _]]; [by left|].
    right. cbn [fst snd] in Hw1 |- *. by rewrite Hw1.
  - split_and!; [|done|done]. destruct Hlog as [[=] | [Hw1 _]].
    right. cbn [fst snd] in Hw1 |- *. by rewrite Hw1.
Qed.

End Barrier.

(** *** A scheduler that is late by any number of polls *)

(** A tree with the two worker scripts, three instances, and the result,
    output, subset and solution directories. *)
Definition sample_fs : filesystem :=
  <[["Slurm"] := Dir]> (
  <[["Slurm"; "safety_check.py"] := File (Lines [])]> (
  <[["Slurm"; "solve_instance.py"] := File (Lines [])]> (
  <[["out"] := Dir]> (
  <[["res"] := Dir]> (
  <[["sub"] := Dir]> (
  <[["sol"] := Dir]> (
  <[["inst"] := Dir]> (
  <[["inst"; "a.mps"] := File (Lines ["a"])]> (
  <[["inst"; "b.mps"] := File (Lines ["b"])]> (
  <[["inst"; "c.mps"] := File (Lines ["c"])]> ∅)))))))))).

Definition sample_world : world := World sample_fs [] [].

(** The scheduler's usual answer, numbering the jobs from 0. *)
Definition usual_stdout (w : world) (cmd : list string) : string :=
  "Submitted batch job " +:+ pretty (N.of_nat (length (submitted w))) +:+ String "010" "".

(** An environment in which the marker of ["out"] appears during the sleep
    that follows [n] earlier ones, and nothing else ever changes. *)
Definition late_env (n : nat) : environment :=
  {| popen_stdout := usual_stdout;
     popen_effect := λ w cmd, fs w;
     sleep_effect := λ w t,
       if bool_decide (length (sleeps w) = n)
       then <[["out"; "safety_check.txt"] := File (Lines [])]> (fs w)
       else fs w |}.

Lemma replicate_snoc {A} (k : nat) (x : A) : replicate k x ++ [x] = replicate (S k) x.
Proof. induction k as [|k IH]; [done|]. simpl. by rewrite IH. Qed.

Lemma late_env_slept (n k : nat) (cmds : list (list string)) :
  (k ≤ n)%nat →
  slept (late_env n) k (World sample_fs cmds []) = World sample_fs cmds (replicate k 5).
Proof.
  induction k as [|k IH]; [done|]. intros Hk.
  change (slept (late_env n) (S k) ?w) with ((sleep (late_env n) 5 (slept (late_env n) k w)).2).
  rewrite IH by lia. unfold sleep. cbn [snd fs submitted sleeps sleep_effect late_env].
  rewrite length_replicate, bool_decide_eq_false_2 by lia. by rewrite replicate_snoc.
Qed.

Lemma late_env_marker (n j : nat) (cmds : list (list string)) :
  FS.isfile (fs (slept (late_env n) (S j) (World sample_fs cmds []))) (marker_file "out") =
  bool_decide (n ≤ j)%nat.
Proof.
  induction j as [|j IH].
  - change (slept (late_env n) 1 ?w) with ((sleep (late_env n) 5 w).2).
    unfold sleep. cbn [snd fs submitted sleeps sleep_effect late_env length].
    destruct n as [|n]; [done|]. rewrite bool_decide_eq_false_2 by done.
    rewrite bool_decide_eq_false_2 by lia. done.
  - change (slept (late_env n) (S (S j)) ?w)
      with ((sleep (late_env n) 5 (slept (late_env n) (S j) w)).2).
    pose proof (slept_log (late_env n) (S j) (World sample_fs cmds [])) as [_ Hlen].
    unfold sleep. cbn [snd fs submitted sleeps sleep_effect late_env].
    rewrite Hlen. cbn [sleeps app]. rewrite length_replicate.
    destruct (decide (S j = n)) as [<-|Hne].
    + rewrite (bool_decide_eq_true_2 (S j = S j)) by done.
      rewrite bool_decide_eq_true_2 by lia. unfold FS.isfile, FS.lookup.
      change (Path.components (marker_file "out")) with ["out"; "safety_check.txt"].
      cbn [bool_decide]. by rewrite lookup_insert_eq.
    + rewrite (bool_decide_eq_false_2 (S j = n)) by done.
      rewrite IH. apply bool_decide_ext. lia.
Qed.

(** With the late scheduler, the barrier is still waiting after any smaller
    number of rounds and returns after [n] rounds, having slept [n + 1]
    times. *)
Lemma late_env_barrier (float_repr : float → string) (n : nat) :
  (∀ fuel, (fuel < n)%nat →
     (wait_for_jobs_to_finish float_repr (late_env n) fuel [] "out" sample_world).1 = Diverge) ∧
  (wait_for_jobs_to_finish float_repr (late_env n) n [] "out" sample_world).1 = Ok () ∧
  sleeps (wait_for_jobs_to_finish float_repr (late_env n) n [] "out" sample_world).2 =
    replicate (S n) 5.
Proof.
  set (cmd := sentinel_cmd float_repr [] "out").
  assert (submit_sentinel float_repr (late_env n) [] "out" sample_world =
          (Ok 0, World sample_fs [cmd] [])) as Hsub.
  { unfold submit_sentinel. cbn zeta. rewrite run_python_slurm_job_unfold.
    assert (submit_checks sample_world "Slurm/safety_check.py"
              (Path.join "out" "safety_check" +:+ ".out") (PyInt 10) (default [] (Some [])) = true)
      as -> by (by vm_compute).
    cbn zeta. cbn [popen_stdout late_env]. unfold usual_stdout.
    destruct (read_acknowledgment ("Submitted batch job " +:+
      pretty (N.of_nat (length (submitted sample_world))) +:+ String "010" ""))
      as (_ & _ & _ & Hack).
    cbn zeta in Hack. rewrite (Hack _ "" eq_refl). done. }
  pose proof (λ fuel, wait_for_jobs_to_finish_spec float_repr (late_env n) fuel [] "out"
                sample_world) as Hspec.
  cbn zeta in Hspec.
  split_and!.
  - intros fuel Hfuel. destruct (Hspec fuel) as (_ & _ & Hrun).
    destruct (Hrun _ _ Hsub) as [_ Hdiv]. rewrite Hdiv; [done|].
    intros j Hj. rewrite late_env_marker. apply bool_decide_eq_false_2. lia.
  - destruct (Hspec n) as (_ & _ & Hrun). destruct (Hrun _ _ Hsub) as [Hret _].
    rewrite (Hret n); [done | lia | |].
    + rewrite late_env_marker. by apply bool_decide_eq_true_2.
    + intros j Hj. rewrite late_env_marker. apply bool_decide_eq_false_2. lia.
  - destruct (Hspec n) as (_ & _ & Hrun). destruct (Hrun _ _ Hsub) as [Hret _].
    rewrite (Hret n); [| lia | |].
    + cbn [snd]. rewrite (proj2 (slept_log _ _ _)). done.
    + rewrite late_env_marker. by apply bool_decide_eq_true_2.
    + intros j Hj. rewrite late_env_marker. apply bool_decide_eq_false_2. lia.
Qed.

(** C1.  The barrier hands at most one command to the scheduler, the
    sentinel's, whose dependency list is the list of job handles it was
    given.  When it returns, that command has been handed over with the
    clause [--dependency=afterany:h1:...:hk] for the handles (no clause for
    none), the marker file [safety_check.txt] of the poll directory exists,
    and the barrier has slept 5 seconds once and then once more after each
    poll that did not find the marker.  Once the sentinel is submitted, the
    barrier returns at the first poll that finds the marker, and as long as
    no poll finds it the barrier neither returns nor raises.  No number of
    polls is an upper bound: for every [n] there is a scheduler with which
    the barrier is still waiting after fewer than [n] rounds and returns
    after [n]. *)
Theorem wait_for_jobs_to_finish_barrier :
  (∀ float_repr env fuel slurm_job_ids outfiles_dir w,
     let marker := Path.join outfiles_dir "safety_check" +:+ ".txt" in
     let sentinel :=
       slurm_cmd float_repr "Slurm/safety_check.py" "cleaner"
         (Path.join outfiles_dir "safety_check" +:+ ".out") (PyInt 10) [PyStr marker]
         slurm_job_ids false in
     let r := wait_for_jobs_to_finish float_repr env fuel slurm_job_ids outfiles_dir w in
     (submitted r.2 = submitted w ∨ submitted r.2 = submitted w ++ [sentinel]) ∧
     (r.1 = Ok () →
        submitted r.2 = submitted w ++ [sentinel] ∧
        (∃ hs : list Z, slurm_job_ids = PyInt <$> hs ∧
           dependency_args float_repr slurm_job_ids =
             match hs with
             | [] => []
             | _ => ["--dependency=afterany:" +:+ Str.join ":" (pretty <$> hs)]
             end) ∧
        FS.isfile (fs r.2) marker = true ∧
        ∃ k, (k ≤ fuel)%nat ∧
          r.2 = slept env (S k) (after_popen env w sentinel) ∧
          sleeps r.2 = sleeps w ++ replicate (S k) 5 ∧
          ∀ j, (j < k)%nat →
            FS.isfile (fs (slept env (S j) (after_popen env w sentinel))) marker = false) ∧
     (∀ job w1,
        run_python_slurm_job float_repr env "Slurm/safety_check.py" "cleaner"
          (Path.join outfiles_dir "safety_check" +:+ ".out") (PyInt 10) [PyStr marker]
          (Some slurm_job_ids) false w = (Ok job, w1) →
        (∀ k, (k ≤ fuel)%nat →
           FS.isfile (fs (slept env (S k) w1)) marker = true →
           (∀ j, (j < k)%nat → FS.isfile (fs (slept env (S j) w1)) marker = false) →
           r = (Ok (), slept env (S k) w1)) ∧
        ((∀ j, (j ≤ fuel)%nat → FS.isfile (fs (slept env (S j) w1)) marker = false) →
           r = (Diverge, slept env (S fuel) w1)))) ∧
  (∀ n : nat, ∃ env w, ∀ float_repr,
     (∀ fuel, (fuel < n)%nat →
        (wait_for_jobs_to_finish float_repr env fuel [] "out" w).1 = Diverge) ∧
     (wait_for_jobs_to_finish float_repr env n [] "out" w).1 = Ok () ∧
     sleeps (wait_for_jobs_to_finish float_repr env n [] "out" w).2 = replicate (S n) 5).
Proof.
  split.
  - intros. apply wait_for_jobs_to_finish_spec.
  - intros n. exists (late_env n), sample_world. intros. apply late_env_barrier.
Qed.

(** ** Paths and the file system *)

Lemma emit_app cur (l : list string) : Path.emit cur l = Path.emit cur [] ++ l.
Proof. unfold Path.emit. by destruct (_ || _). Qed.

Lemma components_go_app_slash (a b cur : string) :
  Path.components_go cur (a +:+ String Path.slash b) =
  Path.components_go cur a ++ Path.components_go "" b.
Proof.
  revert cur. induction a as [|c a IH]; intros cur.
  - change ("" +:+ ?s) with s. simpl. apply emit_app.
  - rewrite app_cons_str. simpl. destruct (Ascii.eqb c Path.slash).
    + rewrite IH, (emit_app cur (_ ++ _)), (emit_app cur (Path.components_go "" a)).
      by rewrite app_assoc.
    + apply IH.
Qed.



Lemma endswith_slash_inv (d : string) :
  Str.endswith "/" d = true → ∃ d0, d = d0 +:+ String Path.slash "".
Proof.
  induction d as [|c d IH]; [done|]. simpl. intros [H|H]%orb_true_iff.
  - apply bool_decide_eq_true in H as [= -> ->]. by exists "".
  - destruct (IH H) as [d0 ->]. by exists (String c d0).
Qed.

Lemma plain_not_absolute (n : string) : Path.plain n = true → Str.startswith "/" n = false.
Proof.
  unfold Path.plain. rewrite !andb_true_iff, !negb_true_iff. intros [[Hne _] Hslash].
  destruct n as [|c n]; [done|]. simpl in *. apply orb_false_iff in Hslash as [Hc _].
  unfold Path.slash in Hc. by rewrite Ascii.eqb_sym, Hc.
Qed.







(** * Further properties of the code *)

(** ** What the controller writes, the worker reads back *)

Lemma pretty_Z_of_N (n : N) : pretty (Z.of_N n) = pretty n.
Proof. by destruct n. Qed.


Section Arguments.

Variable float_repr : float → string.


End Arguments.

(** ** File names of records *)

Lemma length_app_str (s t : string) :
  String.length (s +:+ t) = (String.length s + String.length t)%nat.
Proof. induction s as [|c s IH]; [done|]. rewrite app_cons_str. simpl. by rewrite IH. Qed.

Lemma app_inv_tail_str (s1 s2 t : string) : s1 +:+ t = s2 +:+ t → s1 = s2.
Proof.
  revert s2. induction s1 as [|c s1 IH]; intros [|c' s2] H.
  - done.
  - apply (f_equal String.length) in H. rewrite !length_app_str in H. simpl in H. lia.
  - apply (f_equal String.length) in H. rewrite !length_app_str in H. simpl in H. lia.
  - rewrite !app_cons_str in H. injection H as -> H. f_equal. by apply IH.
Qed.

(** Two strings that end in digits after a part that does not end with a
    digit are cut in the same place. *)
Lemma app_digits_inj (x y d1 d2 : string) :
  x = "" ∨ ends_outside Str.is_digit x = true →
  y = "" ∨ ends_outside Str.is_digit y = true →
  Str.all_chars Str.is_digit d1 = true →
  Str.all_chars Str.is_digit d2 = true →
  x +:+ d1 = y +:+ d2 → x = y ∧ d1 = d2.
Proof.
  assert (∀ x d d', ends_outside Str.is_digit x = true →
            Str.all_chars Str.is_digit d = true → x +:+ d' ≠ d) as Hno.
  { intros x0 d d' Hx Hd Heq. subst d. rewrite all_chars_app in Hd.
    apply andb_true_iff in Hd as [Hd _]. clear d'.
    induction x0 as [|c x0 IH]; [done|]. simpl in *.
    apply andb_true_iff in Hd as [Hc Hd]. destruct x0; [by rewrite Hc in Hx | auto]. }
  revert y. induction x as [|c x IH]; intros y Hx Hy Hd1 Hd2 Heq.
  - change ("" +:+ d1) with d1 in Heq. destruct Hy as [-> | Hy]; [done|].
    symmetry in Heq. by apply Hno in Heq.
  - destruct Hx as [? | Hx]; [done|].
    destruct y as [|c' y].
    + change ("" +:+ d2) with d2 in Heq. by apply Hno in Heq.
    + destruct Hy as [? | Hy]; [done|].
      rewrite !app_cons_str in Heq. injection Heq as -> Heq.
      destruct (IH y) as [-> ->]; try done.
      * destruct x; [by left | by right].
      * destruct y; [by left | by right].
Qed.

Section Filenames.

Variable float_repr : float → string.

(** X1.  Within one directory and for one extension, the file name of a
    record determines its key: two instance names without a slash and four
    natural-number seeds that give the same name are the same. *)
Theorem get_filename_injective (parent_dir ext instance1 instance2 : string)
    (rand_seed1 rand_seed2 permutation_seed1 permutation_seed2 : N) :
  Path.has_slash instance1 = false →
  Path.has_slash instance2 = false →
  get_filename float_repr parent_dir instance1 (Some (PyInt (Z.of_N rand_seed1)))
    (Some (PyInt (Z.of_N permutation_seed1))) (Some ext) =
  get_filename float_repr parent_dir instance2 (Some (PyInt (Z.of_N rand_seed2)))
    (Some (PyInt (Z.of_N permutation_seed2))) (Some ext) →
  instance1 = instance2 ∧ rand_seed1 = rand_seed2 ∧ permutation_seed1 = permutation_seed2.
Proof.
  intros Hi1 Hi2. unfold get_filename, format. rewrite !pretty_Z_of_N.
  destruct (pretty_N_digits rand_seed1) as (_ & Hr1 & _).
  destruct (pretty_N_digits rand_seed2) as (_ & Hr2 & _).
  destruct (pretty_N_digits permutation_seed1) as (_ & Hp1 & _).
  destruct (pretty_N_digits permutation_seed2) as (_ & Hp2 & _).
  assert (∀ i rest, Path.has_slash i = false →
            Str.startswith "/" (i +:+ "__seed__" +:+ rest) = false) as Hrel.
  { intros [|c i] rest H; [done|]. simpl in H. apply orb_false_iff in H as [Hc _].
    rewrite app_cons_str. simpl. unfold Path.slash in Hc.
    by rewrite Ascii.eqb_sym, Hc. }
  unfold Path.join. rewrite !app_assoc_str, !Hrel by done.
  intros Heq.
  assert (instance1 +:+ "__seed__" +:+ pretty rand_seed1 +:+ "__permute__" +:+
            pretty permutation_seed1 +:+ "." +:+ ext =
          instance2 +:+ "__seed__" +:+ pretty rand_seed2 +:+ "__permute__" +:+
            pretty permutation_seed2 +:+ "." +:+ ext) as Hbase.
  { destruct (bool_decide (parent_dir = "") || Str.endswith "/" parent_dir).
    - by apply (inj (String.app parent_dir)) in Heq.
    - apply (inj (String.app parent_dir)) in Heq.
      by apply (inj (String.app "/")) in Heq. }
  clear Heq.
  assert (((instance1 +:+ "__seed__" +:+ pretty rand_seed1) +:+ "__permute__") +:+
            pretty permutation_seed1 =
          ((instance2 +:+ "__seed__" +:+ pretty rand_seed2) +:+ "__permute__") +:+
            pretty permutation_seed2) as Hperm.
  { apply (app_inv_tail_str _ _ ("." +:+ ext)). by rewrite !app_assoc_str. }
  apply app_digits_inj in Hperm as [Hperm Hp]; try done;
    [| right; by apply ends_outside_app | right; by apply ends_outside_app].
  apply app_inv_tail_str in Hperm.
  assert ((instance1 +:+ "__seed__") +:+ pretty rand_seed1 =
          (instance2 +:+ "__seed__") +:+ pretty rand_seed2) as Hseed.
  { by rewrite !app_assoc_str. }
  apply app_digits_inj in Hseed as [Hseed Hr]; try done;
    [| right; by apply ends_outside_app | right; by apply ends_outside_app].
  apply app_inv_tail_str in Hseed.
  split_and!; [done | by apply (inj pretty) | by apply (inj pretty)].
Qed.

End Filenames.

Lemma get_filename_injective_witness :
  "a" = "a" ∧ 1%N = 1%N ∧ 0%N = 0%N.
Proof.
  apply (get_filename_injective (λ _, "") "res" "yml" "a" "a" 1 1 0 0); reflexivity.
Defined.

(** ** The last part of a path *)

Lemma has_char_slash (p : string) : Py.has_char Path.slash p = Path.has_slash p.
Proof. induction p as [|c p IH]; [done|]. simpl. by rewrite IH. Qed.

Lemma has_slash_app (a b : string) :
  Path.has_slash (a +:+ b) = Path.has_slash a || Path.has_slash b.
Proof. by rewrite <- !has_char_slash, has_char_app. Qed.

(** A path has no slash, or a last one. *)
Lemma last_slash (p : string) :
  Path.has_slash p = false ∨
  ∃ a b, p = a +:+ String Path.slash b ∧ Path.has_slash b = false.
Proof.
  induction p as [|c p IH]; [by left|]. simpl.
  destruct IH as [Hp | (a & b & -> & Hb)].
  - destruct (Ascii.eqb_spec c Path.slash) as [->|Hc].
    + right. by exists "", p.
    + left. by rewrite Hp.
  - right. by exists (String c a), b.
Qed.

Lemma head_part_no_slash (p : string) : Path.has_slash p = false → Path.head_part p = "".
Proof.
  induction p as [|c p IH]; [done|]. simpl. intros [Hc Hp]%orb_false_iff.
  by rewrite Hp, Hc.
Qed.

Lemma head_part_last_slash (a b : string) :
  Path.has_slash b = false →
  Path.head_part (a +:+ String Path.slash b) = a +:+ String Path.slash "".
Proof.
  intros Hb. induction a as [|c a IH].
  - change ("" +:+ ?s) with s. simpl. by rewrite Hb.
  - rewrite !app_cons_str. simpl. rewrite has_slash_app. simpl.
    rewrite orb_true_r. by rewrite IH.
Qed.

Lemma drop_length_app (s t : string) : Str.drop (String.length s) (s +:+ t) = t.
Proof. induction s as [|c s IH]; [by destruct t|]. rewrite app_cons_str. simpl. apply IH. Qed.

(** [p.split('/')[-1]] is [os.path.basename(p)]. *)
Lemma last_split_slash (p : string) :
  default "" (last (Str.split "/" p)) = Path.basename p.
Proof.
  unfold Path.basename, Str.split. destruct (last_slash p) as [Hp | (a & b & -> & Hb)].
  - rewrite head_part_no_slash by done. simpl.
    rewrite split_go_char_none by exact (eq_trans (has_char_slash p) Hp). done.
  - rewrite head_part_last_slash by done.
    replace (a +:+ String Path.slash b) with ((a +:+ String Path.slash "") +:+ b) at 2
      by (by rewrite app_assoc_str).
    rewrite drop_length_app.
    change "/" with (String Path.slash ""). rewrite last_split_go_char.
    rewrite split_go_char_none by exact (eq_trans (has_char_slash b) Hb). done.
Qed.

(** The instance name the controller derives from a path, and hands to the
    worker beside the path (generate_instance_subset.py, lines 35-36). *)
Definition submitted_instance (instance_path : string) : string :=
  default "" (head (Str.split ".mps" (default "" (last (Str.split "/" instance_path))))).

(** The name the worker's assertion compares the instance with
    (solve_instance.py, line 59):
    [os.path.split(instance_path)[-1].split('.mps')[0]]. *)
Definition asserted_instance (instance_path : string) : string :=
  default "" (head (Str.split ".mps" (Path.basename instance_path))).

(** X3.  The instance name the controller derives from an instance path is
    the one the worker's assertion derives from it, whatever the path: the
    two ways of cutting the file name off a path agree, so the assertion
    never fails on what the controller submits. *)
Theorem instance_name_agreement (instance_path : string) :
  default "" (last (Str.split "/" instance_path)) = Path.basename instance_path ∧
  submitted_instance instance_path = asserted_instance instance_path.
Proof.
  split; [apply last_split_slash|].
  unfold submitted_instance, asserted_instance. by rewrite last_split_slash.
Qed.

(** ** The directory of the output file *)

Lemma components_all_slashes (s : string) :
  Str.all_chars (Ascii.eqb Path.slash) s = true → Path.components_go "" s = [].
Proof.
  induction s as [|c s IH]; [done|]. simpl. intros [Hc Hs]%andb_true_iff.
  rewrite Ascii.eqb_sym, Hc. unfold Path.emit. simpl. by apply IH.
Qed.

Lemma components_rstrip_slash (s cur : string) :
  Path.components_go cur (Str.rstrip_by (Ascii.eqb Path.slash) s) = Path.components_go cur s.
Proof.
  revert cur. induction s as [|c s IH]; intros cur; [done|].
  destruct (rstrip_by_cons (Ascii.eqb Path.slash) c s) as [[-> Hall] | ->].
  - simpl in Hall. apply andb_true_iff in Hall as [Hc Hs]. simpl.
    rewrite Ascii.eqb_sym, Hc. by rewrite components_all_slashes.
  - simpl. destruct (Ascii.eqb c Path.slash); by rewrite IH.
Qed.

Lemma components_app_slash (d : string) :
  Path.components (d +:+ String Path.slash "") = Path.components d.
Proof.
  unfold Path.components. rewrite components_go_app_slash. simpl.
  unfold Path.emit. simpl. by rewrite app_nil_r.
Qed.

Lemma lookup_same_components (fs : filesystem) (p q : string) :
  p ≠ "" → q ≠ "" → Path.components p = Path.components q →
  FS.lookup fs p = FS.lookup fs q.
Proof.
  intros Hp Hq Hc. unfold FS.lookup. rewrite !bool_decide_eq_false_2 by done.
  by rewrite Hc.
Qed.

Lemma dirname_no_slash (p : string) : Path.has_slash p = false → Path.dirname p = "".
Proof. intros Hp. unfold Path.dirname. by rewrite head_part_no_slash. Qed.

(** The directory part of an entry's path names the directory. *)
Lemma lookup_dirname_join (fs : filesystem) (d n : string) :
  d ≠ "" → Path.plain n = true →
  FS.lookup fs (Path.dirname (Path.join d n)) = FS.lookup fs d.
Proof.
  intros Hd Hn.
  assert (Path.has_slash n = false) as Hns.
  { unfold Path.plain in Hn. rewrite !andb_true_iff, !negb_true_iff in Hn. by destruct_and!. }
  assert (∃ h, Path.join d n = h +:+ String Path.slash n ∧
               Path.components (h +:+ String Path.slash "") = Path.components d)
    as (h & -> & Hh).
  { unfold Path.join. rewrite plain_not_absolute by done.
    rewrite bool_decide_eq_false_2 by done. simpl.
    destruct (Str.endswith "/" d) eqn:He.
    - apply endswith_slash_inv in He as [d0 ->]. exists d0. split; [|done].
      by rewrite app_assoc_str.
    - exists d. split; [done|]. apply components_app_slash. }
  unfold Path.dirname. rewrite head_part_last_slash by done. cbn zeta.
  assert (h +:+ String Path.slash "" ≠ "") as Hne.
  { intros [_ ?]%app_eq_nil_str. done. }
  rewrite bool_decide_eq_false_2 by done. simpl.
  destruct (Str.all_chars (Ascii.eqb Path.slash) (h +:+ String Path.slash "")) eqn:Hall; simpl.
  - by apply lookup_same_components.
  - apply lookup_same_components; [|done|].
    + intros Hr. apply rstrip_by_nil_all in Hr. congruence.
    + unfold Path.components in *. by rewrite components_rstrip_slash.
Qed.

Section OutfileDirectory.

Variable float_repr : float → string.
Variable env : environment.

(** X4.  The submitter's check of the output file's directory, for an
    output file that is an entry [n] of a directory [d] given by a non-empty
    path, is the check that [d] is a directory.  An output file named without
    any directory part is always refused, before the scheduler is called:
    its directory part is the empty string, which names no directory. *)
Theorem outfile_directory_check :
  (∀ (fs : filesystem) (d n : string), d ≠ "" → Path.plain n = true →
     FS.isdir fs (Path.dirname (Path.join d n)) = FS.isdir fs d) ∧
  (∀ python_file job_name outfile time_limit arg_list dependencies exclusive w,
     Path.has_slash outfile = false →
     run_python_slurm_job float_repr env python_file job_name outfile time_limit arg_list
       dependencies exclusive w = (Raise AssertionError, w)).
Proof.
  split.
  - intros fs d n Hd Hn. unfold FS.isdir. by rewrite lookup_dirname_join.
  - intros python_file job_name outfile time_limit arg_list dependencies exclusive w Hout.
    rewrite run_python_slurm_job_unfold.
    assert (submit_checks w python_file outfile time_limit (default [] dependencies) = false)
      as ->; [|done].
    unfold submit_checks. rewrite dirname_no_slash by done.
    change (FS.isdir (fs w) "") with false.
    by rewrite andb_false_r.
Qed.

End OutfileDirectory.

(** ** The tests on a record *)




(** ** The log of a run *)






Section SlurmOutput.

Variable float_repr : float → string.




End SlurmOutput.


(** ** The configuration file *)

Section Config.

Variable float_of_str : string → option float.

Implicit Types (hyperparameters : list string) (lines : list string)
  (config_dict : gmap string pyval).

(** [line] is a line for [hyperparameter]. *)
Definition names (line hyperparameter : string) : bool :=
  Str.startswith (hyperparameter +:+ ": ") line.

(** The entries one line sets, when its text converts to [v]. *)
Definition set_named (line : string) (v : pyval) hyperparameters config_dict :
    gmap string pyval :=
  foldl (λ d hp, if names line hp then <[hp := v]> d else d) config_dict hyperparameters.

Lemma set_named_lookup line v hyperparameters config_dict (hp : string) :
  set_named line v hyperparameters config_dict !! hp =
  if bool_decide (hp ∈ hyperparameters) && names line hp then Some v
  else config_dict !! hp.
Proof.
  unfold set_named. revert config_dict.
  induction hyperparameters as [|h t IH]; intros d; [done|]. simpl. rewrite IH.
  destruct (decide (hp ∈ t)) as [Ht|Ht].
  - rewrite !bool_decide_eq_true_2 by (done || by right). simpl.
    destruct (names line hp) eqn:Hn; [done|].
    destruct (names line h) eqn:Hh; [|done].
    rewrite lookup_insert_ne; [done|]. intros ->. congruence.
  - rewrite (bool_decide_eq_false_2 (hp ∈ t)) by done. simpl.
    destruct (decide (hp = h)) as [->|Hne].
    + rewrite bool_decide_eq_true_2 by by left. simpl.
      destruct (names line h); [by rewrite lookup_insert_eq | done].
    + rewrite bool_decide_eq_false_2.
      * simpl. destruct (names line h); [by rewrite lookup_insert_ne | done].
      * intros [?|?]%elem_of_cons; done.
Qed.

Lemma read_config_line_unfold hyperparameters line config_dict w :
  read_config_line float_of_str hyperparameters line config_dict w =
  (if existsb (names line) hyperparameters then
     match config_convert float_of_str (config_value line) with
     | Some v => Ok (set_named line v hyperparameters config_dict)
     | None => Raise ValueError
     end
   else Ok config_dict, w).
Proof.
  unfold read_config_line, set_named. revert config_dict.
  induction hyperparameters as [|h t IH]; intros d; [done|].
  cbn [fold_m existsb foldl]. unfold mbind, M_bind, bind. fold (names line h).
  destruct (names line h) eqn:Hh; cbn [orb].
  - unfold of_option. destruct (config_convert _ _) as [v|] eqn:Hv; [|done].
    cbn. rewrite IH. destruct (existsb (names line) t) eqn:Ht; [done|].
    f_equal. f_equal. clear IH. revert Ht. generalize (<[h:=v]> d).
    induction t as [|h' t IH]; intros d' Ht; [done|]. simpl in *.
    apply orb_false_iff in Ht as [-> Ht]. by apply IH.
  - cbn. apply IH.
Qed.

(** The last line for a hyperparameter. *)
Definition last_named lines (hp : string) : option string :=
  last (List.filter (λ line, names line hp) lines).

Lemma last_named_snoc lines line hp :
  last_named (lines ++ [line]) hp =
  if names line hp then Some line else last_named lines hp.
Proof.
  unfold last_named. rewrite List.filter_app. simpl.
  destruct (names line hp); [by rewrite last_snoc | by rewrite app_nil_r].
Qed.

(** The state of the outer loop, after the lines [done] and before the lines
    [lines]: either a line has raised, or the dictionary holds, for each
    hyperparameter, what its last line so far stands for. *)
Lemma read_config_lines_inv hyperparameters lines done_lines config_dict w :
  (∀ hp, config_dict !! hp =
           if bool_decide (hp ∈ hyperparameters)
           then last_named done_lines hp ≫= λ line,
                  config_convert float_of_str (config_value line)
           else None) →
  (∀ line hp, line ∈ done_lines → hp ∈ hyperparameters → names line hp = true →
     is_Some (config_convert float_of_str (config_value line))) →
  let r := fold_m lines (read_config_line float_of_str hyperparameters) config_dict w in
  r.2 = w ∧
  match r.1 with
  | Ok d =>
      (∀ hp, d !! hp =
               if bool_decide (hp ∈ hyperparameters)
               then last_named (done_lines ++ lines) hp ≫= λ line,
                      config_convert float_of_str (config_value line)
               else None) ∧
      (∀ line hp, line ∈ done_lines ++ lines → hp ∈ hyperparameters →
         names line hp = true →
         is_Some (config_convert float_of_str (config_value line)))
  | Raise e =>
      e = ValueError ∧
      ∃ line hp, line ∈ lines ∧ hp ∈ hyperparameters ∧ names line hp = true ∧
        config_convert float_of_str (config_value line) = None
  | Diverge => False
  end.
Proof.
  assert (∀ line lines done_lines (r : outcome (gmap string pyval)),
            match r with
            | Ok d =>
                (∀ hp, d !! hp =
                   if bool_decide (hp ∈ hyperparameters)
                   then last_named (done_lines ++ line :: lines) hp ≫= λ line,
                          config_convert float_of_str (config_value line)
                   else None) ∧
                (∀ l hp, l ∈ done_lines ++ line :: lines → hp ∈ hyperparameters →
                   names l hp = true →
                   is_Some (config_convert float_of_str (config_value l)))
            | Raise e =>
                e = ValueError ∧
                ∃ l hp, l ∈ lines ∧ hp ∈ hyperparameters ∧ names l hp = true ∧
                  config_convert float_of_str (config_value l) = None
            | Diverge => False
            end →
            match r with
            | Ok d =>
                (∀ hp, d !! hp =
                   if bool_decide (hp ∈ hyperparameters)
                   then last_named (done_lines ++ line :: lines) hp ≫= λ line,
                          config_convert float_of_str (config_value line)
                   else None) ∧
                (∀ l hp, l ∈ done_lines ++ line :: lines → hp ∈ hyperparameters →
                   names l hp = true →
                   is_Some (config_convert float_of_str (config_value l)))
            | Raise e =>
                e = ValueError ∧
                ∃ l hp, l ∈ line :: lines ∧ hp ∈ hyperparameters ∧ names l hp = true ∧
                  config_convert float_of_str (config_value l) = None
            | Diverge => False
            end) as raised_later.
  { intros l0 ls dl [d|e|]; [done| |done].
    intros (-> & l & hp & Hl & H). split; [done|]. exists l, hp. split; [by right | done]. }
  revert done_lines config_dict.
  induction lines as [|line lines IH]; intros done_lines d Hd Hconv.
  - simpl. rewrite app_nil_r. done.
  - cbn [fold_m]. unfold mbind, M_bind, bind. rewrite read_config_line_unfold.
    destruct (existsb (names line) hyperparameters) eqn:Hex.
    + destruct (config_convert float_of_str (config_value line)) as [v|] eqn:Hv.
      * specialize (IH (done_lines ++ [line]) (set_named line v hyperparameters d)).
        rewrite <- (assoc_L (++)) in IH. cbn zeta in IH.
        change ([line] ++ lines) with (line :: lines) in IH.
        destruct IH as [Hw Hr]; [| | split; [done|]; by apply raised_later].
        -- intros hp. rewrite set_named_lookup, last_named_snoc, Hd.
           destruct (bool_decide (hp ∈ hyperparameters)); simpl; [|done].
           destruct (names line hp); simpl; done.
        -- intros l hp [Hl | ->%list_elem_of_singleton]%elem_of_app Hhp Hn.
           ++ by apply (Hconv l hp).
           ++ by rewrite Hv.
      * simpl. split; [done|]. split; [done|].
        apply existsb_exists in Hex as (hp & Hin & Hn).
        exists line, hp. rewrite <- list_elem_of_In in Hin.
        split_and!; [by left | done..].
    + specialize (IH (done_lines ++ [line]) d).
      rewrite <- (assoc_L (++)) in IH. cbn zeta in IH.
      change ([line] ++ lines) with (line :: lines) in IH.
      destruct IH as [Hw Hr]; [| | split; [done|]; by apply raised_later].
      * intros hp. rewrite last_named_snoc, Hd.
        destruct (decide (hp ∈ hyperparameters)) as [Hin|Hin].
        -- rewrite bool_decide_eq_true_2 by done.
           destruct (names line hp) eqn:Hn; [|done].
           exfalso. apply not_true_iff_false in Hex. apply Hex, existsb_exists.
           exists hp. by rewrite <- list_elem_of_In.
        -- by rewrite bool_decide_eq_false_2.
      * intros l hp [Hl | ->%list_elem_of_singleton]%elem_of_app Hhp Hn.
        -- by apply (Hconv l hp).
        -- exfalso. apply not_true_iff_false in Hex. apply Hex, existsb_exists.
           exists hp. by rewrite <- list_elem_of_In.
Qed.

Lemma map_m_getitem config_dict (keys : list string) w :
  map_m (getitem config_dict) keys w =
  (match mapM (λ key, config_dict !! key) keys with
   | Some vs => Ok vs
   | None => Raise KeyError
   end, w).
Proof.
  induction keys as [|k keys IH]; [done|].
  cbn [map_m mapM]. unfold mbind at 1 2, M_bind, bind.
  assert (getitem config_dict k w =
          (match config_dict !! k with Some v => Ok v | None => Raise KeyError end, w)) as ->.
  { unfold getitem, of_option. by destruct (config_dict !! k). }
  destruct (config_dict !! k) as [v|]; [|done].
  rewrite IH. simpl. by destruct (mapM _ keys).
Qed.

Lemma last_named_Some lines (hp line : string) :
  last_named lines hp = Some line → line ∈ lines ∧ names line hp = true.
Proof.
  unfold last_named. intros Hl.
  assert (line ∈ List.filter (λ line, names line hp) lines) as Hin.
  { destruct (List.filter _ _) as [|x l] using rev_ind; [done|].
    rewrite last_snoc in Hl. injection Hl as ->. apply elem_of_app. right. by left. }
  apply list_elem_of_In, filter_In in Hin as [Hin Hn]. by rewrite <- list_elem_of_In in Hin.
Qed.

Lemma read_config_file_unfold (config_file : string) hyperparameters (c : content) w :
  FS.read (fs w) config_file = Ok c →
  read_config_file float_of_str config_file hyperparameters w =
  match fold_m (readlines c) (read_config_line float_of_str hyperparameters) ∅ w with
  | (Ok config_dict, w') => map_m (getitem config_dict) hyperparameters w'
  | (Raise e, w') => (Raise e, w')
  | (Diverge, w') => (Diverge, w')
  end.
Proof.
  intros Hread. unfold read_config_file, mbind, M_bind, bind, get_fs, lift. by rewrite Hread.
Qed.

(** X7.  Reading a configuration from a readable file leaves the world as
    it is and
    - returns, for each hyperparameter in the order asked, what the LAST
      line of the file that starts with its name, a colon and a space stands
      for: [True], [False], or the float of the text after the last colon and
      space of that line;
    - raises [ValueError] exactly when some line that starts with a
      hyperparameter's name has a text that is neither word and that [float]
      rejects, even when a later line for that hyperparameter is fine;
    - otherwise raises [KeyError] exactly when some hyperparameter has no
      line. *)
Theorem read_config_file_last_line_wins (config_file : string) hyperparameters
    (c : content) (w : world) :
  FS.read (fs w) config_file = Ok c →
  let r := read_config_file float_of_str config_file hyperparameters w in
  let unreadable :=
    ∃ line hp, line ∈ readlines c ∧ hp ∈ hyperparameters ∧ names line hp = true ∧
      config_convert float_of_str (config_value line) = None in
  let missing := ∃ hp, hp ∈ hyperparameters ∧ last_named (readlines c) hp = None in
  r.2 = w ∧
  (∀ vs, r.1 = Ok vs →
     Forall2 (λ hp v, ∃ line, last_named (readlines c) hp = Some line ∧
                config_convert float_of_str (config_value line) = Some v)
       hyperparameters vs) ∧
  (r.1 = Raise ValueError ↔ unreadable) ∧
  (r.1 = Raise KeyError ↔ ¬ unreadable ∧ missing) ∧
  (¬ unreadable → ¬ missing → ∃ vs, r.1 = Ok vs).
Proof.
  intros Hread r unreadable missing.
  assert (r = match fold_m (readlines c) (read_config_line float_of_str hyperparameters) ∅ w
              with
              | (Ok config_dict, w') => map_m (getitem config_dict) hyperparameters w'
              | (Raise e, w') => (Raise e, w')
              | (Diverge, w') => (Diverge, w')
              end) as Hr by (by apply read_config_file_unfold).
  clearbody r.
  pose proof (read_config_lines_inv hyperparameters (readlines c) [] ∅ w) as Hinv.
  cbn zeta in Hinv. rewrite app_nil_l in Hinv.
  destruct Hinv as [Hw Hinv].
  { intros hp. rewrite lookup_empty. by destruct (bool_decide _). }
  { intros ? ? []%elem_of_nil. }
  destruct (fold_m (readlines c) _ ∅ w) as [[d|e|] w'] eqn:Hfold; simpl in Hw; subst w';
    simpl in Hinv; [| |done].
  - destruct Hinv as [Hd Hconv]. rewrite map_m_getitem in Hr.
    assert (¬ unreadable) as Hok.
    { intros (line & hp & Hl & Hhp & Hn & Hnone).
      destruct (Hconv line hp Hl Hhp Hn) as [v Hv]. congruence. }
    assert (∀ hp, hp ∈ hyperparameters →
              d !! hp = last_named (readlines c) hp ≫= λ line,
                          config_convert float_of_str (config_value line)) as Hd'.
    { intros hp Hhp. by rewrite Hd, bool_decide_eq_true_2. }
    assert (∀ hp, hp ∈ hyperparameters → d !! hp = None ↔ last_named (readlines c) hp = None)
      as Hnone.
    { intros hp Hhp. rewrite Hd' by done.
      destruct (last_named (readlines c) hp) as [line|] eqn:Hl; [|done]. simpl.
      apply last_named_Some in Hl as [Hin Hn].
      destruct (Hconv line hp Hin Hhp Hn) as [v ->]. done. }
    destruct (mapM (λ key, d !! key) hyperparameters) as [vs|] eqn:Hm; subst r; simpl.
    + apply mapM_Some in Hm.
      assert (¬ missing) as Hnm.
      { intros (hp & Hhp & Hl). apply Hnone in Hl; [|done].
        apply list_elem_of_lookup in Hhp as [i Hi].
        destruct (Forall2_lookup_l _ _ _ _ _ Hm Hi) as (v & _ & Hv). congruence. }
      split_and!.
      * done.
      * intros vs0 [= <-].
        apply Forall2_same_length_lookup in Hm as [Hlen Hm].
        apply Forall2_same_length_lookup. split; [done|].
        intros i hp v Hi Hv. specialize (Hm i hp v Hi Hv). simpl in Hm.
        rewrite Hd' in Hm by (by eapply list_elem_of_lookup_2).
        destruct (last_named (readlines c) hp) as [line|]; [|done]. by exists line.
      * split; [done | by intros ?].
      * split; [done | by intros [_ ?]].
      * intros _ _. by exists vs.
    + apply mapM_None, Exists_exists in Hm as (hp & Hhp & Hdn).
      assert (missing) as Hmiss by (exists hp; split; [done | by apply Hnone]).
      split_and!.
      * done.
      * done.
      * split; [done | by intros ?].
      * done.
      * done.
  - destruct Hinv as [-> Hbad]. subst r. simpl. split_and!.
    + done.
    + done.
    + done.
    + split; [done | by intros [? _]].
    + done.
Qed.

End Config.

Lemma read_config_file_last_line_wins_witness :
  (read_config_file (λ _, None) "inst/a.mps" ["isp_weight"] sample_world).1 = Raise KeyError ↔
  ¬ (∃ line hp, line ∈ ["a"] ∧ hp ∈ ["isp_weight"] ∧ names line hp = true ∧
       config_convert (λ _, None) (config_value line) = None) ∧
  ∃ hp, hp ∈ ["isp_weight"] ∧ last_named ["a"] hp = None.
Proof.
  exact (proj1 (proj2 (proj2 (proj2
    (read_config_file_last_line_wins (λ _, None) "inst/a.mps" ["isp_weight"] (Lines ["a"])
       sample_world eq_refl))))).
Defined.

(** ** The statistics a worker reads back *)

#[local] Arguments Str.slice : simpl never.
#[local] Arguments Str.split : simpl never.
#[local] Arguments Str.contains : simpl never.
#[local] Arguments Str.strip_by : simpl never.
#[local] Arguments Py.int_of_str : simpl never.

Section Statistics.

Variable float_of_str : string → option float.

(** The header of the table of LP statistics. *)
Definition lp_header : string := "LP                 ".

(** The number in columns 42 to 52 of the seventh line after line [i]. *)
Definition lp_field (stats : list string) (i : nat) : option Z :=
  stats !! (i + 7)%nat ≫= λ l, Py.int_of_str (Str.slice 42 53 l).

Lemma solve_info_lp_iterations (scip : scip_model) :
  solve_info scip !! "num_lp_iterations" = Some (PyInt (getNLPIterations scip)) ∧
  solve_info scip !! "num_total_lp_iterations" = None.
Proof. unfold solve_info. split; by simplify_map_eq. Qed.

#[local] Ltac raised := split; [reflexivity | first [by left | by right]].

Lemma read_stats_line_inv (stats : list string) (i : nat) (line : string)
    (data : gmap string pyval) (n : Z) (w : world) :
  data !! "num_lp_iterations" = Some (PyInt n) →
  let r := read_stats_line float_of_str stats (i, line) data w in
  r.2 = w ∧
  match r.1 with
  | Ok data' =>
      (∀ key, key ≠ "primal_dual_integral" → key ≠ "num_runs" →
         key ≠ "num_total_lp_iterations" → data' !! key = data !! key) ∧
      (if Str.contains lp_header line
       then ∃ z, lp_field stats i = Some z ∧
                 data' !! "num_total_lp_iterations" = Some (PyInt (n + 2 * z))
       else data' !! "num_total_lp_iterations" = data !! "num_total_lp_iterations")
  | Raise e => e = IndexError ∨ e = ValueError
  | Diverge => False
  end.
Proof.
  intros Hn. cbn zeta.
  unfold read_stats_line, lp_iterations_field, lp_field, lp_header,
    mbind, M_bind, bind, of_option, mret, M_ret, ret, raise.
  repeat first
    [ rewrite lookup_insert_ne by done
    | rewrite Hn
    | progress cbn
    | match goal with
      | |- context [match ?o with Some _ => _ | None => _ end] => destruct o eqn:?
      | |- context [if ?b then _ else _] => destruct b eqn:?
      end ];
  try (by raised);
  (split; [done|]; split;
     [intros key ? ? ?; by rewrite ?lookup_insert_ne by done|]);
  first
    [ eexists; split; [done|]; rewrite lookup_insert_eq; do 2 f_equal; lia
    | by rewrite ?lookup_insert_ne by done ].
Qed.

(** X8.  Whatever the statistics file holds, the loop over its lines leaves
    the world as it is and either raises [IndexError] or [ValueError] (never
    [KeyError] or [TypeError]: the iteration count it adds to is always
    there, and an integer), or returns the solve information with at most
    three entries added or changed.  Every entry of the solve information is
    unchanged; [num_total_lp_iterations] is set exactly when some line holds
    the LP header, and its value is then the number of LP iterations plus
    TWICE the number read in columns 42 to 52 of the seventh line after such
    a line: the strong-branching and the conflict-analysis iterations are
    both read from those same columns. *)
Theorem read_stats_total_lp_iterations (scip : scip_model) (stats : list string)
    (w : world) :
  let r := fold_m (imap pair stats) (read_stats_line float_of_str stats) (solve_info scip) w in
  r.2 = w ∧
  match r.1 with
  | Ok data =>
      (∀ key, key ≠ "primal_dual_integral" → key ≠ "num_runs" →
         key ≠ "num_total_lp_iterations" → data !! key = solve_info scip !! key) ∧
      (∀ v, data !! "num_total_lp_iterations" = Some v →
         ∃ i line z, stats !! i = Some line ∧ Str.contains lp_header line = true ∧
           lp_field stats i = Some z ∧ v = PyInt (getNLPIterations scip + 2 * z)) ∧
      (data !! "num_total_lp_iterations" = None ↔
         ∀ line, line ∈ stats → Str.contains lp_header line = false)
  | Raise e => e = IndexError ∨ e = ValueError
  | Diverge => False
  end.
Proof.
  destruct (solve_info_lp_iterations scip) as [Hn Ht].
  assert (∀ (items seen : list (nat * string)) (data : gmap string pyval),
    (∀ i line, (i, line) ∈ seen ++ items → stats !! i = Some line) →
    (∀ key, key ≠ "primal_dual_integral" → key ≠ "num_runs" →
       key ≠ "num_total_lp_iterations" → data !! key = solve_info scip !! key) →
    (∀ v, data !! "num_total_lp_iterations" = Some v →
       ∃ i line z, stats !! i = Some line ∧ Str.contains lp_header line = true ∧
         lp_field stats i = Some z ∧ v = PyInt (getNLPIterations scip + 2 * z)) →
    (data !! "num_total_lp_iterations" = None ↔
       ∀ i line, (i, line) ∈ seen → Str.contains lp_header line = false) →
    let r := fold_m items (read_stats_line float_of_str stats) data w in
    r.2 = w ∧
    match r.1 with
    | Ok data' =>
        (∀ key, key ≠ "primal_dual_integral" → key ≠ "num_runs" →
           key ≠ "num_total_lp_iterations" → data' !! key = solve_info scip !! key) ∧
        (∀ v, data' !! "num_total_lp_iterations" = Some v →
           ∃ i line z, stats !! i = Some line ∧ Str.contains lp_header line = true ∧
             lp_field stats i = Some z ∧ v = PyInt (getNLPIterations scip + 2 * z)) ∧
        (data' !! "num_total_lp_iterations" = None ↔
           ∀ i line, (i, line) ∈ seen ++ items → Str.contains lp_header line = false)
    | Raise e => e = IndexError ∨ e = ValueError
    | Diverge => False
    end) as Hloop.
  { induction items as [|[i line] items IH]; intros seen data Hstats Hbase Hset Hnone.
    - simpl. rewrite app_nil_r. done.
    - cbn [fold_m]. unfold mbind, M_bind, bind.
      assert (data !! "num_lp_iterations" = Some (PyInt (getNLPIterations scip))) as Hdn
        by (by rewrite Hbase).
      pose proof (read_stats_line_inv stats i line data _ w Hdn) as Hstep.
      cbn zeta in Hstep.
      destruct (read_stats_line float_of_str stats (i, line) data w) as [[data'|e|] w'];
        simpl in Hstep; destruct Hstep as [-> Hstep]; [|done..].
      destruct Hstep as [Hsame Htot].
      specialize (IH (seen ++ [(i, line)]) data').
      rewrite <- (assoc_L (++)) in IH. apply IH; clear IH.
      + done.
      + intros key ? ? ?. rewrite Hsame by done. by apply Hbase.
      + intros v Hv. destruct (Str.contains lp_header line) eqn:Hlp.
        * destruct Htot as (z & Hz & Hv'). exists i, line, z.
          split_and!; [apply Hstats, elem_of_app; right; by left | done | done | congruence].
        * rewrite Htot in Hv. by apply Hset.
      + destruct (Str.contains lp_header line) eqn:Hlp.
        * destruct Htot as (z & Hz & Hv'). rewrite Hv'. split; [done|].
          intros Hall. rewrite (Hall i line) in Hlp; [done|]. apply elem_of_app. right. by left.
        * rewrite Htot, Hnone. split.
          -- intros Hall j l [Hj | [= -> ->]%list_elem_of_singleton]%elem_of_app;
               [by eapply Hall | done].
          -- intros Hall j l Hj. apply (Hall j l), elem_of_app. by left. }
  specialize (Hloop (imap pair stats) [] (solve_info scip)). cbn zeta in Hloop.
  rewrite app_nil_l in Hloop.
  assert (∀ i line, (i, line) ∈ imap pair stats ↔ stats !! i = Some line) as Himap.
  { intros i line. rewrite elem_of_lookup_imap. split.
    - intros (j & x & [= -> ->] & Hx). done.
    - intros Hx. by exists i, line. }
  destruct Hloop as [Hw Hr].
  - intros i line. by rewrite Himap.
  - done.
  - intros v. by rewrite Ht.
  - split; [by intros _ ? ? []%elem_of_nil | done].
  - cbn zeta. split; [done|].
    destruct (fold_m _ _ _ w).1 as [data|e|]; [|done..].
    destruct Hr as (Hbase & Hset & Hnone). split_and!; [done..|].
    rewrite Hnone. split.
    + intros Hall line [i Hi]%list_elem_of_lookup. apply (Hall i line), Himap, Hi.
    + intros Hall i line Hi%Himap. apply Hall. by eapply list_elem_of_lookup_2.
Qed.

End Statistics.

(** ** What a phase hands to the scheduler *)

(** A computation that hands nothing to the scheduler. *)
Definition quiet {A} (m : M A) : Prop := ∀ w, submitted (m w).2 = submitted w.

Lemma bind_run {A B} (m : M A) (k : A → M B) (w : world) :
  (m ≫= k) w =
  match m w with
  | (Ok a, w') => k a w'
  | (Raise e, w') => (Raise e, w')
  | (Diverge, w') => (Diverge, w')
  end.
Proof. done. Qed.

Lemma quiet_ret {A} (a : A) : quiet (mret a).
Proof. done. Qed.

Lemma quiet_raise {A} (e : exn) : quiet (@raise A e).
Proof. done. Qed.

Lemma quiet_bind {A B} (m : M A) (k : A → M B) :
  quiet m → (∀ a, quiet (k a)) → quiet (m ≫= k).
Proof.
  intros Hm Hk w. rewrite bind_run. specialize (Hm w).
  destruct (m w) as [[a|e|] w']; simpl in *; [|done..]. by rewrite Hk.
Qed.

Lemma quiet_fmap {A B} (f : A → B) (m : M A) : quiet m → quiet (f <$> m).
Proof. intros Hm. apply (quiet_bind m); [done|]. intros a. apply quiet_ret. Qed.

Lemma quiet_assert (b : bool) : quiet (assert b).
Proof. by destruct b. Qed.

Lemma quiet_lift {A} (o : outcome A) : quiet (lift o).
Proof. done. Qed.

Lemma quiet_of_option {A} (e : exn) (o : option A) : quiet (of_option e o).
Proof. by destruct o. Qed.

Lemma quiet_get_fs : quiet get_fs.
Proof. done. Qed.

Lemma quiet_on_fs {A} (f : filesystem → outcome A * filesystem) : quiet (on_fs f).
Proof. intros w. unfold on_fs. by destruct (f (fs w)). Qed.

Lemma quiet_for_each {A} (l : list A) (body : A → M unit) :
  (∀ x, quiet (body x)) → quiet (for_each l body).
Proof.
  intros Hb. induction l as [|x l IH]; [done|]. simpl. apply quiet_bind; [apply Hb | done].
Qed.

Lemma quiet_fold_m {A S} (l : list A) (body : A → S → M S) (s : S) :
  (∀ x s, quiet (body x s)) → quiet (fold_m l body s).
Proof.
  intros Hb. revert s. induction l as [|x l IH]; intros s; [done|]. simpl.
  apply quiet_bind; [apply Hb | done].
Qed.

Create HintDb quiet.
#[local] Hint Resolve quiet_ret quiet_raise quiet_assert quiet_lift quiet_of_option quiet_get_fs
  quiet_on_fs quiet_fmap : quiet.

#[local] Ltac quiet_tac :=
  repeat first
    [ solve [eauto with quiet]
    | apply quiet_bind; [|intros ?]
    | apply quiet_for_each; intros ?
    | apply quiet_fold_m; intros ? ?
    | match goal with
      | |- quiet (if ?b then _ else _) => destruct b
      | |- quiet (match ?v with PyNone => _ | _ => _ end) => destruct v
      | |- quiet (match ?c with Lines _ => _ | YamlMap _ => _ end) => destruct c
      end ].

Lemma quiet_remove_temp_files (temp_dir : string) : quiet (remove_temp_files temp_dir).
Proof. unfold remove_temp_files. quiet_tac. Qed.

Lemma quiet_copy (src dst : string) : quiet (copy src dst).
Proof. unfold copy. quiet_tac. Qed.

Lemma quiet_suitable (instance_data : gmap string pyval) : quiet (suitable instance_data).
Proof. unfold suitable, getitem, le_threshold_val, le_val_threshold. quiet_tac. Qed.

#[local] Hint Resolve quiet_suitable quiet_remove_temp_files quiet_copy : quiet.

Section Phase.

Variable float_repr : float → string.
Variable env : environment.

Lemma quiet_collect (results_dir : string) (instances : list string) :
  quiet (collect float_repr results_dir instances).
Proof.
  unfold collect, collect_step, safe_load. quiet_tac.
Qed.

Lemma quiet_select {A} (l : list A) (ids : list nat) : quiet (select l ids).
Proof. unfold select. quiet_tac. Qed.

Variables (solution_dir results_dir outfiles_dir : string).
Variables (load_solutions print_solutions : bool).

(** The command for the candidate at [instance_path]: the call of
    [run_python_slurm_job] in the loop of [filter_instances], for the names
    the controller derives from the path. *)
Definition worker_cmd (instance_path : string) : list string :=
  let r := PyInt 0 in
  let p := PyInt 0 in
  let instance := submitted_instance instance_path in
  let solution_path := PyStr (Path.join solution_dir (instance +:+ ".sol")) in
  let load_solution_path := if load_solutions then solution_path else PyNone in
  let print_solution_path := if print_solutions then solution_path else PyNone in
  let scip_time_lim :=
    if load_solutions then parameters.TRAINING_SET_TIME_LIMIT_WITH_SOLUTION
    else parameters.TRAINING_SET_TIME_LIMIT_WITHOUT_SOLUTION in
  slurm_cmd float_repr "Slurm/solve_instance.py"
    (instance +:+ "--" +:+ format float_repr r +:+ "--" +:+ format float_repr p)
    (Path.join outfiles_dir
       ("%j__" +:+ instance +:+ "__" +:+ format float_repr r +:+ "__" +:+
        format float_repr p +:+ ".out"))
    (PyInt (2 * scip_time_lim))
    [PyStr results_dir; PyStr instance_path; PyStr instance; r; p; PyInt scip_time_lim;
     PyBool true; print_solution_path; load_solution_path; PyBool true;
     PyFloat 0; PyFloat 0; PyFloat 0; PyFloat 0; PyFloat 0; PyFloat 0; PyFloat 0;
     PyFloat 1; PyInt 1; PyInt 1; PyFloat 1; PyFloat float_0_2; PyFloat float_0_4;
     PyBool false; PyBool true; PyBool false; PyBool false]
    [] false.

Variable instance_paths : list string.

Definition instance_files : list string :=
  map (λ instance_path, default "" (last (Str.split "/" instance_path))) instance_paths.

Definition instances : list string :=
  map (λ instance_file, default "" (head (Str.split ".mps" instance_file))) instance_files.

Definition solution_paths : list string :=
  map (λ instance, Path.join solution_dir (instance +:+ ".sol")) instances.

(** The call of [run_python_slurm_job] in the loop, for the candidate at
    [instance_path]. *)
Definition worker_call (instance_path : string) : M Z :=
  let r := PyInt 0 in
  let p := PyInt 0 in
  let instance := submitted_instance instance_path in
  let solution_path := PyStr (Path.join solution_dir (instance +:+ ".sol")) in
  let load_solution_path := if load_solutions then solution_path else PyNone in
  let print_solution_path := if print_solutions then solution_path else PyNone in
  let scip_time_lim :=
    if load_solutions then parameters.TRAINING_SET_TIME_LIMIT_WITH_SOLUTION
    else parameters.TRAINING_SET_TIME_LIMIT_WITHOUT_SOLUTION in
  run_python_slurm_job float_repr env "Slurm/solve_instance.py"
    (instance +:+ "--" +:+ format float_repr r +:+ "--" +:+ format float_repr p)
    (Path.join outfiles_dir
       ("%j__" +:+ instance +:+ "__" +:+ format float_repr r +:+ "__" +:+
        format float_repr p +:+ ".out"))
    (PyInt (2 * scip_time_lim))
    [PyStr results_dir; PyStr instance_path; PyStr instance; r; p; PyInt scip_time_lim;
     PyBool true; print_solution_path; load_solution_path; PyBool true;
     PyFloat 0; PyFloat 0; PyFloat 0; PyFloat 0; PyFloat 0; PyFloat 0; PyFloat 0;
     PyFloat 1; PyInt 1; PyInt 1; PyFloat 1; PyFloat float_0_2; PyFloat float_0_4;
     PyBool false; PyBool true; PyBool false; PyBool false]
    None false.

Lemma submit_step_unfold (i : nat) (instance_path : string) (slurm_job_ids : list pyval)
    (w : world) :
  instance_paths !! i = Some instance_path →
  submit_step float_repr env instance_paths instances solution_paths results_dir
    outfiles_dir load_solutions print_solutions i slurm_job_ids w =
  (ji ← worker_call instance_path; mret (slurm_job_ids ++ [PyInt ji])) w.
Proof.
  intros Hi.
  assert (instances !! i = Some (submitted_instance instance_path)) as Hinst.
  { unfold instances, instance_files. rewrite !list_lookup_fmap, Hi. done. }
  assert (solution_paths !! i =
          Some (Path.join solution_dir (submitted_instance instance_path +:+ ".sol"))) as Hsol.
  { unfold solution_paths. by rewrite list_lookup_fmap, Hinst. }
  unfold submit_step, worker_call. rewrite Hinst, Hi, Hsol.
  by destruct load_solutions, print_solutions.
Qed.

Lemma worker_call_log (instance_path : string) (w : world) :
  worker_call instance_path w = (Raise AssertionError, w) ∨
  (worker_call instance_path w).2 = after_popen env w (worker_cmd instance_path) ∧
  (worker_call instance_path w).1 ≠ Diverge.
Proof.
  unfold worker_call. cbn zeta. rewrite run_python_slurm_job_unfold.
  destruct (submit_checks _ _ _ _ _); [right | by left].
  split; [done|]. cbn zeta. simpl.
  destruct (Str.contains _ _); [|done]. by destruct (Py.int_of_str _).
Qed.

(** One turn of the submission loop: either nothing is handed over and the
    turn raises, or the candidate's command is, and the turn returns the
    handles with one more or raises. *)
Lemma submit_step_log (i : nat) (instance_path : string) (slurm_job_ids : list pyval)
    (w : world) :
  instance_paths !! i = Some instance_path →
  let r := submit_step float_repr env instance_paths instances solution_paths results_dir
             outfiles_dir load_solutions print_solutions i slurm_job_ids w in
  (submitted r.2 = submitted w ∧ ∃ e, r.1 = Raise e) ∨
  (submitted r.2 = submitted w ++ [worker_cmd instance_path] ∧
   ((∃ ji : Z, r.1 = Ok (slurm_job_ids ++ [PyInt ji])) ∨ ∃ e, r.1 = Raise e)).
Proof.
  intros Hi. cbn zeta. rewrite (submit_step_unfold i instance_path) by done.
  rewrite bind_run.
  destruct (worker_call_log instance_path w) as [-> | [Hw Hnd]]; [left; eauto|].
  destruct (worker_call instance_path w) as [[ji|e|] w1]; simpl in *; subst w1;
    [| |done]; right; (split; [done|]); [left | right]; eauto.
Qed.

(** The submission loop over the candidates from [k] on. *)
Lemma submit_loop_log (rest : list string) (k : nat) (slurm_job_ids : list pyval)
    (w : world) :
  drop k instance_paths = rest →
  let r := fold_m (seq k (length rest))
             (submit_step float_repr env instance_paths instances solution_paths results_dir
                outfiles_dir load_solutions print_solutions) slurm_job_ids w in
  (∃ cmds, submitted r.2 = submitted w ++ cmds ∧ cmds `prefix_of` (worker_cmd <$> rest)) ∧
  match r.1 with
  | Ok ids =>
      submitted r.2 = submitted w ++ (worker_cmd <$> rest) ∧
      ∃ hs : list Z, length hs = length rest ∧ ids = slurm_job_ids ++ (PyInt <$> hs)
  | Raise _ => True
  | Diverge => False
  end.
Proof.
  revert k slurm_job_ids w. induction rest as [|instance_path rest IH];
    intros k ids w Hdrop; cbn zeta.
  - simpl. split; [exists []; by rewrite app_nil_r|]. split; [by rewrite app_nil_r|].
    exists []. by rewrite app_nil_r.
  - assert (instance_paths !! k = Some instance_path) as Hk.
    { rewrite <- (Nat.add_0_r k), <- lookup_drop, Hdrop. done. }
    assert (drop (S k) instance_paths = rest) as Hdrop'.
    { replace (S k) with (k + 1)%nat by lia. by rewrite <- drop_drop, Hdrop. }
    cbn [length seq fold_m]. rewrite bind_run.
    pose proof (submit_step_log k instance_path ids w Hk) as Hstep. cbn zeta in Hstep.
    destruct (submit_step _ _ _ _ _ _ _ _ _ k ids w) as [o w1]. simpl in Hstep.
    destruct Hstep as [[Hlog [e ->]] | [Hlog [[ji ->] | [e ->]]]].
    + simpl. split; [|done]. exists []. rewrite app_nil_r. split; [done|].
      apply prefix_nil.
    + specialize (IH (S k) (ids ++ [PyInt ji]) w1 Hdrop'). cbn zeta in IH.
      destruct IH as [(cmds & Hcmds & Hpre) IH]. split.
      * exists (worker_cmd instance_path :: cmds). split.
        -- rewrite Hcmds, Hlog, <- (assoc_L (++)). done.
        -- rewrite ?fmap_cons. by apply prefix_cons.
      * destruct (fold_m _ _ _ w1).1 as [ids'|e|]; [|done..].
        destruct IH as [Hall (hs & Hlen & ->)]. split.
        -- rewrite Hall, Hlog, <- (assoc_L (++)). done.
        -- exists (ji :: hs). split; [by simpl; rewrite Hlen|].
           by rewrite <- (assoc_L (++)).
    + simpl. split; [|done]. exists [worker_cmd instance_path]. split; [done|].
      rewrite ?fmap_cons. apply prefix_cons, prefix_nil.
Qed.

(** X9.  A phase hands commands to the scheduler in one fixed order: one
    command per candidate, in the order of the input and submitted without
    dependencies, and then the sentinel, whose dependencies are the handles
    read from the scheduler's answers.  Whatever happens, what has
    been handed over is a prefix of that sequence; a phase that returns has
    handed over all of it, that is one command more than there are
    candidates.  A phase that writes solutions returns the paths it was
    given. *)
Theorem filter_instances_submissions (fuel : nat) (instance_subset_dir : string) (w : world) :
  let r := filter_instances float_repr env fuel instance_paths solution_dir results_dir
             outfiles_dir instance_subset_dir load_solutions print_solutions w in
  let workers := worker_cmd <$> instance_paths in
  (∃ cmds, submitted r.2 = submitted w ++ cmds ∧
     (cmds `prefix_of` workers ∨
      ∃ hs : list Z, length hs = length instance_paths ∧
        cmds = workers ++ [sentinel_cmd float_repr (PyInt <$> hs) outfiles_dir])) ∧
  (∀ result, r.1 = Ok result →
     (∃ hs : list Z, length hs = length instance_paths ∧
        submitted r.2 =
          submitted w ++ workers ++ [sentinel_cmd float_repr (PyInt <$> hs) outfiles_dir]) ∧
     (print_solutions = true → result = instance_paths)).
Proof.
  cbn zeta. set (workers := worker_cmd <$> instance_paths).
  assert (∀ w' : world, submitted w' = submitted w →
            ∃ cmds, submitted w' = submitted w ++ cmds ∧
              (cmds `prefix_of` workers ∨
               ∃ hs : list Z, length hs = length instance_paths ∧
                 cmds = workers ++ [sentinel_cmd float_repr (PyInt <$> hs) outfiles_dir]))
    as Hnothing.
  { intros w' ->. exists []. rewrite app_nil_r. split; [done|]. left. apply prefix_nil. }
  unfold filter_instances. fold instance_files. fold instances. fold solution_paths.
  rewrite bind_run. pose proof (quiet_remove_temp_files results_dir w) as Hq1.
  destruct (remove_temp_files results_dir w) as [[[]|e|] w1]; simpl in Hq1;
    [|by simpl; split; [apply Hnothing|]..].
  rewrite bind_run. pose proof (quiet_remove_temp_files outfiles_dir w1) as Hq2.
  destruct (remove_temp_files outfiles_dir w1) as [[[]|e|] w2]; simpl in Hq2;
    [|by simpl; split; [apply Hnothing; congruence|]..].
  rewrite bind_run.
  pose proof (submit_loop_log instance_paths 0 [] w2 eq_refl) as Hloop.
  cbn zeta in Hloop. fold workers in Hloop.
  replace (length instances) with (length instance_paths)
    by (unfold instances, instance_files; by rewrite !length_map).
  destruct Hloop as [(cmds & Hcmds & Hpre) Hok].
  destruct (fold_m _ _ _ w2) as [[ids|e|] w3]; simpl in Hcmds, Hok; [| |done].
  2:{ simpl. split; [|done]. exists cmds. split; [by rewrite Hcmds, Hq2, Hq1 | by left]. }
  destruct Hok as [Hall (hs & Hlen & ->)]. rewrite ?app_nil_l.
  rewrite bind_run.
  pose proof (wait_for_jobs_to_finish_spec float_repr env fuel (PyInt <$> hs) outfiles_dir w3)
    as (Hw & Hwok & _). cbn zeta in Hw, Hwok.
  destruct (wait_for_jobs_to_finish float_repr env fuel (PyInt <$> hs) outfiles_dir w3)
    as [[[]|e|] w4]; simpl in Hw, Hwok.
  2,3: simpl; split; [|done]; destruct Hw as [Hw | Hw];
    [exists workers; split; [by rewrite Hw, Hall, Hq2, Hq1 | by left]
    |exists (workers ++ [sentinel_cmd float_repr (PyInt <$> hs) outfiles_dir]);
     split; [rewrite Hw, Hall, Hq2, Hq1; by rewrite <- (assoc_L (++)) | right; by exists hs]].
  destruct (Hwok eq_refl) as [Hsent _]. clear Hw Hwok.
  assert (submitted w4 =
          submitted w ++ workers ++ [sentinel_cmd float_repr (PyInt <$> hs) outfiles_dir])
    as Hlog by (rewrite Hsent, Hall, Hq2, Hq1; by rewrite <- (assoc_L (++))).
  match goal with |- context [?tail w4] =>
    assert (quiet tail) as Hq; [|specialize (Hq w4); destruct (tail w4) as [o w5] eqn:Htail]
  end.
  { destruct print_solutions; [apply quiet_ret|].
    apply quiet_bind; [apply quiet_collect | intros ids].
    apply quiet_bind; [apply quiet_remove_temp_files | intros _].
    apply quiet_bind; [| intros _; apply quiet_select].
    apply quiet_for_each. intros i. quiet_tac. }
  simpl in Hq. rewrite Hlog in Hq. simpl. split.
  - eexists. split; [exact Hq|]. right. by exists hs.
  - intros result ->. split; [by exists hs|]. intros Hprint.
    rewrite Hprint in Htail. by injection Htail as <- _.
Qed.

End Phase.

(** A phase that returns: the solution-writing phase on two candidates of
    the sample tree, with a scheduler that answers at once. *)
Example filter_instances_sample :
  let r := filter_instances (λ _, "") (late_env 0) 1 ["inst/a.mps"; "inst/b.mps"]
             "sol" "res" "out" "sub" false true sample_world in
  r.1 = Ok ["inst/a.mps"; "inst/b.mps"] ∧ length (submitted r.2) = 3%nat.
Proof. vm_compute. done. Qed.
